(** * Retrieval engine: chunking, indexing glue, retrieval and memory logic

    A shallow embedding of [vector_store.py], [rag_retriever.py] and
    [memory_manager.py].

    Conventions of the embedding.
    - Python [str] is a Rocq [string]; the text is read as ASCII, so
      [str.lower], [str.strip], [str.split] and the regular expression
      of [_extract_key_terms] are given on ASCII characters.
    - Python [int] is [Z]; [x or default] on an optional int is [py_or].
    - Python [float] scores are exact rationals ([Q]).
    - A [dict] used as a record (document, chunk metadata, search result)
      is a [Record] whose fields are optional where the code reads them
      with [.get(key, default)]; a [dict] used as a map (checksums, search
      patterns) is a [gmap]; a [set] is a [gset].
    - The embedding provider, the storage engine (its ranking, its
      rejection of a row, its check of the [include] list of a
      [collection.get]), the content aggregator, [hashlib.md5], the
      builtin [hash], [uuid.uuid4], [datetime.strptime] and numpy's cosine
      are outside the repository: they are parameters.  Where one
      of them raises inside a [try], the [except] branch of the source
      is followed.
    - [print] calls are dropped: they change no value that is returned. *)

From Stdlib Require Import ZArith QArith Ascii String DecimalString List Lia Bool.
From stdpp Require Import gmap strings list fin_maps.

Local Open Scope Z_scope.

(** ** Python string primitives used by the sources *)

Module PyStr.

Definition len (s : string) : Z := Z.of_nat (String.length s).

Definition code (c : ascii) : nat := nat_of_ascii c.

(** [str.isspace] on one ASCII character: TAB..CR, FS..US and space. *)
Definition isspace (c : ascii) : bool :=
  let n := code c in
  ((9 <=? n)%nat && (n <=? 13)%nat) || ((28 <=? n)%nat && (n <=? 32)%nat).

Definition isupper (c : ascii) : bool :=
  let n := code c in (65 <=? n)%nat && (n <=? 90)%nat.

Definition isalpha (c : ascii) : bool :=
  let n := code c in
  ((65 <=? n)%nat && (n <=? 90)%nat) || ((97 <=? n)%nat && (n <=? 122)%nat).

Definition isdigit (c : ascii) : bool :=
  let n := code c in (48 <=? n)%nat && (n <=? 57)%nat.

(** [\w] of the [re] module, on ASCII. *)
Definition isword (c : ascii) : bool :=
  isalpha c || isdigit c || (code c =? 95)%nat.

Definition lower_char (c : ascii) : ascii :=
  if isupper c then ascii_of_nat (code c + 32) else c.

Fixpoint lower (s : string) : string :=
  match s with
  | EmptyString => EmptyString
  | String c s' => String (lower_char c) (lower s')
  end.

Definition is_empty (s : string) : bool :=
  match s with EmptyString => true | _ => false end.

Fixpoint lstrip (s : string) : string :=
  match s with
  | EmptyString => EmptyString
  | String c s' => if isspace c then lstrip s' else s
  end.

Fixpoint rstrip (s : string) : string :=
  match s with
  | EmptyString => EmptyString
  | String c s' =>
      match rstrip s' with
      | EmptyString => if isspace c then EmptyString else String c EmptyString
      | r => String c r
      end
  end.

(** [s.strip()] *)
Definition strip (s : string) : string := rstrip (lstrip s).

(** Index normalisation of slices and of [rfind]'s bounds: a negative
    index counts from the end, and the result is clamped to [0, n]. *)
Definition clamp (n i : Z) : Z :=
  if i <? 0 then Z.max 0 (n + i) else Z.min i n.

(** [s[start:stop]] *)
Definition slice (s : string) (start stop : Z) : string :=
  let n := len s in
  let a := clamp n start in
  let b := clamp n stop in
  String.substring (Z.to_nat a) (Z.to_nat (b - a)) s.

(** [s[:stop]] *)
Definition slice_to (s : string) (stop : Z) : string := slice s 0 stop.

Fixpoint rfind_aux (sub s : string) (pos a b best : Z) : Z :=
  let best' :=
    if (a <=? pos) && (pos + len sub <=? b) && String.prefix sub s
    then pos else best in
  match s with
  | EmptyString => best'
  | String _ s' => rfind_aux sub s' (pos + 1) a b best'
  end.

(** [s.rfind(sub, start, stop)]: the highest index of an occurrence of
    [sub] lying inside [s[start:stop]], or -1. *)
Definition rfind (s sub : string) (start stop : Z) : Z :=
  let n := len s in
  rfind_aux sub s 0 (clamp n start) (clamp n stop) (-1).

(** [sub in s] *)
Fixpoint contains (sub s : string) : bool :=
  String.prefix sub s ||
  match s with
  | EmptyString => false
  | String _ s' => contains sub s'
  end.

Definition of_rev (cur : list ascii) : string :=
  string_of_list_ascii (rev cur).

Definition flush (cur : list ascii) : list string :=
  match cur with [] => [] | _ => [of_rev cur] end.

Fixpoint split_aux (s : string) (cur : list ascii) : list string :=
  match s with
  | EmptyString => flush cur
  | String c s' =>
      if isspace c then flush cur ++ split_aux s' []
      else split_aux s' (c :: cur)
  end.

(** [s.split()]: the maximal runs of non-blank characters. *)
Definition split (s : string) : list string := split_aux s [].

(** [sep.join(parts)] *)
Fixpoint join (sep : string) (parts : list string) : string :=
  match parts with
  | [] => EmptyString
  | [p] => p
  | p :: rest => p +:+ sep +:+ join sep rest
  end.

Definition flush_word (cur : list ascii) (pure : bool) : list string :=
  match cur with
  | [] => []
  | _ => if pure then [of_rev cur] else []
  end.

Fixpoint findall_words_aux (s : string) (cur : list ascii) (pure : bool)
  : list string :=
  match s with
  | EmptyString => flush_word cur pure
  | String c s' =>
      if isword c then findall_words_aux s' (c :: cur) (pure && isalpha c)
      else flush_word cur pure ++ findall_words_aux s' [] true
  end.

(** [re.findall(r'\b[a-zA-Z]+\b', s)]: a match starts and ends at a
    word boundary, so the matches are the maximal runs of word
    characters that consist of letters only. *)
Definition findall_words (s : string) : list string :=
  findall_words_aux s [] true.

Definition first_char (s : string) : option ascii :=
  match s with EmptyString => None | String c _ => Some c end.

Fixpoint last_char (s : string) : option ascii :=
  match s with
  | EmptyString => None
  | String c EmptyString => Some c
  | String _ s' => last_char s'
  end.

(** No blank at either end. *)
Definition trimmed (s : string) : Prop :=
  (forall c, first_char s = Some c -> isspace c = false) /\
  (forall c, last_char s = Some c -> isspace c = false).

End PyStr.

(** ** config.py *)

Module Config.
Definition CHUNK_SIZE : Z := 1000.
Definition CHUNK_OVERLAP : Z := 200.
Definition TOP_K_RESULTS : Z := 5.
End Config.

(** [x or d] for an optional int: [None] and [0] are falsy. *)
Definition py_or (x : option Z) (d : Z) : Z :=
  match x with
  | None => d
  | Some v => if v =? 0 then d else v
  end.

(** ** vector_store.py: the chunker *)

Module Chunker.
Import PyStr.

(** The end of the window that starts at [start]: the raw offset, moved
    back to a sentence or word boundary found in the second half. *)
Definition window_end (text : string) (chunk_size start : Z) : Z :=
  let end_ := start + chunk_size in
  if end_ <? len text then
    let sentence_end := rfind text ". " start end_ in
    if negb (sentence_end =? -1) && (start + chunk_size / 2 <? sentence_end)
    then sentence_end + 1
    else
      let word_end := rfind text " " start end_ in
      if negb (word_end =? -1) && (start + chunk_size / 2 <? word_end)
      then word_end
      else end_
  else end_.

(** [start = max(start + 1, end - overlap)] *)
Definition next_start (text : string) (chunk_size overlap start : Z) : Z :=
  Z.max (start + 1) (window_end text chunk_size start - overlap).

(** One turn of the [while] body: the chunk list after the turn. *)
Definition emit (text : string) (chunk_size start : Z) (chunks : list string)
  : list string :=
  let chunk := strip (slice text start (window_end text chunk_size start)) in
  if is_empty chunk then chunks else chunks ++ [chunk].

(** The [while start < len(text)] loop; [None] when [fuel] turns were
    not enough to leave it. *)
Fixpoint chunk_loop (fuel : nat) (text : string) (chunk_size overlap start : Z)
    (chunks : list string) : option (list string) :=
  if start <? len text then
    match fuel with
    | O => None
    | S fuel' =>
        let chunks' := emit text chunk_size start chunks in
        let start' := next_start text chunk_size overlap start in
        if len text <=? start' then Some chunks'
        else chunk_loop fuel' text chunk_size overlap start' chunks'
    end
  else Some chunks.

Definition chunk_text_fuel (fuel : nat) (text : string)
    (chunk_size overlap : option Z) : option (list string) :=
  let chunk_size := py_or chunk_size Config.CHUNK_SIZE in
  let overlap := py_or overlap Config.CHUNK_OVERLAP in
  if len text <=? chunk_size then Some [text]
  else chunk_loop fuel text chunk_size overlap 0 [].

(** [ChromaVectorStore._chunk_text]; one turn per character is always
    enough (see [chunk_loop_enough]). *)
Definition _chunk_text (text : string) (chunk_size overlap : option Z)
  : list string :=
  default [] (chunk_text_fuel (String.length text) text chunk_size overlap).

(** What a chunk of the loop looks like: not empty, no blank at
    either end. *)
Definition clean (chunk : string) : Prop :=
  chunk <> EmptyString /\ trimmed chunk.

End Chunker.

(** ** Data model *)

(** A document as the callers pass it: a dict read with [.get]. *)
Record document := {
  d_id : option string;
  d_title : option string;
  d_content : option string;
  d_author : option string;
  d_date : option string;
  d_topic : option string;
  d_type : option string;
  d_source_url : option string
}.

(** Chunk metadata as stored next to a chunk, and as carried by a result. *)
Record metadata := {
  m_document_id : option string;
  m_chunk_index : option Z;
  m_title : option string;
  m_author : option string;
  m_date : option string;
  m_topic : option string;
  m_type : option string;
  m_source_url : option string;
  m_chunk_text : option string;
  m_external_source : option bool
}.

(** What the collection keeps under a chunk id. *)
Record row := {
  row_embedding : list Q;
  row_document : string;
  row_metadata : metadata
}.

(** A mutating call issued to the collection. *)
Inductive index_call :=
| CallAdd (chunk_id : string) (landed : bool)
| CallDelete (ids : list string).

(** The state owned by a [ChromaVectorStore]: the collection (chunk id to
    row), the mutating calls issued so far, and how many uuids were drawn. *)
Record store := {
  collection : gmap string row;
  index_log : list index_call;
  uuid_calls : nat
}.

Record search_result := {
  r_id : string;
  r_content : string;
  r_metadata : metadata;
  r_distance : Q;
  r_similarity_score : Q;
  r_advanced_score : option Q
}.

Record retrieval_metadata := {
  reranked : bool;
  external_content_included : bool;
  final_result_count : Z
}.

Record retrieval_context := {
  rc_query : string;
  rc_results : list search_result;
  rc_context_summary : string;
  rc_total_results_found : Z;
  rc_external_sources_used : Z;
  rc_retrieval_metadata : retrieval_metadata
}.

(** ** External collaborators *)

(** The embedding provider; [None] is a raised exception. *)
Class EmbeddingGateway := {
  embeddings_create : string -> option (list Q)
}.

(** The storage engine: whether [collection.add] raises on a row, the
    nearest-neighbour query ([None] is a raised exception), and whether
    [collection.get] raises on the [include] list it is handed (the
    engine checks the names in it before it reads anything).  A
    [collection.delete] of ids that a [get] returned is taken to
    succeed. *)
Class VectorIndex := {
  index_rejects : gmap string row -> string -> row -> bool;
  index_query : gmap string row -> list Q -> Z -> option (list (string * row * Q));
  index_get_rejects : list string -> bool
}.

(** The documents of [ContentAggregator.gather_comprehensive_content]
    carry every key ([external_content_retriever.py] builds them so). *)
Record fetched := {
  f_id : string;
  f_title : string;
  f_content : string;
  f_author : string;
  f_date : string;
  f_topic : string;
  f_type : string;
  f_source_url : option string
}.

Class ContentAggregator := {
  gather_comprehensive_content : string -> option (list fetched)
}.

(** Library functions the sources call. *)
Class Runtime := {
  uuid4 : nat -> string;
  py_hash : string -> Z;
  md5_hexdigest : string -> string;
  cosine : list Q -> list Q -> Q;
  (** [datetime.strptime(s, '%Y-%m-%d')] as microseconds since the epoch;
      [None] is [ValueError]. *)
  strptime_ymd : string -> option Z;
  (** the digest sentence of [_generate_context_summary] for a non-empty
      result list (set iteration order and float formatting) *)
  summary_text : string -> list search_result -> string
}.

Definition document_of_fetched (c : fetched) : document :=
  {| d_id := Some (f_id c); d_title := Some (f_title c);
     d_content := Some (f_content c); d_author := Some (f_author c);
     d_date := Some (f_date c); d_topic := Some (f_topic c);
     d_type := Some (f_type c); d_source_url := f_source_url c |}.

(** ** vector_store.py: the store *)

Module VectorStore.
Import PyStr Chunker.

Section Store.
Context `{EmbeddingGateway} `{VectorIndex} `{Runtime}.

Fixpoint replace_newlines (s : string) : string :=
  match s with
  | EmptyString => EmptyString
  | String c s' =>
      String (if (code c =? 10)%nat then " "%char else c) (replace_newlines s')
  end.

(** An exception of the provider yields the empty list. *)
Definition _generate_embedding (text : string) : list Q :=
  match embeddings_create (replace_newlines text) with
  | Some v => v
  | None => []
  end.

Definition str_of_nat (n : nat) : string :=
  NilEmpty.string_of_uint (Nat.to_uint n).

Definition chunk_id_of (doc_id : string) (i : nat) : string :=
  doc_id +:+ "_chunk_" +:+ str_of_nat i.

Definition tick_uuid (st : store) : store :=
  {| collection := collection st; index_log := index_log st;
     uuid_calls := S (uuid_calls st) |}.

(** [collection.add] inside its [try]: a chunk id already present or a
    row the engine refuses leaves the collection as it was. *)
Definition collection_add (st : store) (chunk_id : string) (r : row) : store :=
  if bool_decide (is_Some (collection st !! chunk_id))
     || index_rejects (collection st) chunk_id r
  then {| collection := collection st;
          index_log := index_log st ++ [CallAdd chunk_id false];
          uuid_calls := uuid_calls st |}
  else {| collection := <[chunk_id := r]> (collection st);
          index_log := index_log st ++ [CallAdd chunk_id true];
          uuid_calls := uuid_calls st |}.

Definition chunk_metadata (d : document) (doc_id : string) (i : nat)
    (chunk : string) : metadata :=
  {| m_document_id := Some doc_id;
     m_chunk_index := Some (Z.of_nat i);
     m_title := Some (default EmptyString (d_title d));
     m_author := Some (default EmptyString (d_author d));
     m_date := Some (default EmptyString (d_date d));
     m_topic := Some (default EmptyString (d_topic d));
     m_type := Some (default EmptyString (d_type d));
     m_source_url := None;
     m_chunk_text := Some (slice_to chunk 500);
     m_external_source := None |}.

(** The [for i, chunk in enumerate(chunks)] loop of [add_document]. *)
Fixpoint add_chunks (d : document) (doc_id : string) (i : nat)
    (chunks : list string) (st : store) (chunk_ids : list string)
  : list string * store :=
  match chunks with
  | [] => (chunk_ids, st)
  | chunk :: rest =>
      let chunk_id := chunk_id_of doc_id i in
      let chunk_ids := chunk_ids ++ [chunk_id] in
      match _generate_embedding chunk with
      | [] => add_chunks d doc_id (S i) rest st chunk_ids
      | embedding =>
          let r := {| row_embedding := embedding; row_document := chunk;
                      row_metadata := chunk_metadata d doc_id i chunk |} in
          add_chunks d doc_id (S i) rest (collection_add st chunk_id r) chunk_ids
      end
  end.

Definition add_document (d : document) (st : store) : list string * store :=
  let doc_id := default (uuid4 (uuid_calls st)) (d_id d) in
  let st := tick_uuid st in
  let content := default EmptyString (d_content d) in
  if is_empty content then ([], st)
  else add_chunks d doc_id 0 (_chunk_text content None None) st [].

(** [result[doc_id] = chunk_ids] for the first document of a batch,
    given the entries the rest of the batch leaves: the dict lists a key
    where it was first set and holds under it what was set last. *)
Definition dict_first (doc_id : string) (chunk_ids : list string)
    (later : list (string * list string)) : list (string * list string) :=
  match filter (fun kv => kv.1 = doc_id) later with
  | [] => (doc_id, chunk_ids) :: later
  | kv :: _ => (doc_id, kv.2) :: filter (fun kv => kv.1 <> doc_id) later
  end.

(** The returned dict is given as the list of its items. *)
Fixpoint add_documents (docs : list document) (st : store)
  : list (string * list string) * store :=
  match docs with
  | [] => ([], st)
  | d :: rest =>
      let doc_id := default (uuid4 (uuid_calls st)) (d_id d) in
      let '(chunk_ids, st) := add_document d (tick_uuid st) in
      let '(result, st) := add_documents rest st in
      (dict_first doc_id chunk_ids result, st)
  end.

Definition result_of_hit (hit : string * row * Q) : search_result :=
  let '(id, r, distance) := hit in
  {| r_id := id; r_content := row_document r; r_metadata := row_metadata r;
     r_distance := distance; r_similarity_score := (1 - distance)%Q;
     r_advanced_score := None |}.

Definition similarity_search (st : store) (query : string) (k : option Z)
  : list search_result :=
  let k := py_or k Config.TOP_K_RESULTS in
  match _generate_embedding query with
  | [] => []
  | query_embedding =>
      match index_query (collection st) query_embedding k with
      | None => []
      | Some hits => map result_of_hit hits
      end
  end.

(** The ids [collection.get(where={"document_id": doc_id})] returns. *)
Definition chunk_ids_of (doc_id : string) (c : gmap string row) : gset string :=
  dom (filter (fun kv => m_document_id (row_metadata kv.2) = Some doc_id) c).

(** [delete_document]: the whole body is one [try]; when the
    [collection.get(where=..., include=['ids'])] raises, the [except]
    branch returns [False] and nothing was deleted. *)
Definition delete_document (doc_id : string) (st : store) : bool * store :=
  if index_get_rejects ["ids"] then (false, st)
  else
    let ids := chunk_ids_of doc_id (collection st) in
    if bool_decide (ids = ∅) then (false, st)
    else (true,
          {| collection := filter (fun kv => kv.1 ∉ ids) (collection st);
             index_log := index_log st ++ [CallDelete (elements ids)];
             uuid_calls := uuid_calls st |}).

Definition update_document (d : document) (st : store) : list string * store :=
  match d_id d with
  | None => ([], st)
  | Some doc_id =>
      if is_empty doc_id then ([], st)
      else add_document d (delete_document doc_id st).2
  end.

End Store.

Definition is_add (c : index_call) : Prop :=
  match c with CallAdd _ _ => True | CallDelete _ => False end.

(** The same document with another content. *)
Definition with_content (content : string) (d : document) : document :=
  {| d_id := d_id d; d_title := d_title d; d_content := Some content;
     d_author := d_author d; d_date := d_date d; d_topic := d_topic d;
     d_type := d_type d; d_source_url := d_source_url d |}.

End VectorStore.

(** ** Key terms ([AdvancedRAGRetriever._extract_key_terms]; the
    [MemoryManager] carries the same method, word for word) *)

Module KeyTerms.
Import PyStr.

Definition stop_words : list string :=
  ["the"; "a"; "an"; "and"; "or"; "but"; "in"; "on"; "at"; "to"; "for";
   "of"; "with"; "by"; "is"; "are"; "was"; "were"; "be"; "been"; "being";
   "have"; "has"; "had"; "do"; "does"; "did"; "will"; "would"; "could";
   "should"; "may"; "might"; "can"; "what"; "how"; "when"; "where"; "why"].

Definition _extract_key_terms (text : string) : string :=
  let words := findall_words (lower text) in
  let key_terms :=
    List.filter
      (fun word => negb (bool_decide (word ∈ stop_words)) && (2 <? len word))
      words in
  join " " (take 5 key_terms).

End KeyTerms.

(** ** rag_retriever.py *)

Module Retriever.
Import PyStr VectorStore KeyTerms.

(** [l[:k]] on a list. *)
Definition list_slice_to {A} (l : list A) (k : Z) : list A :=
  take (Z.to_nat (clamp (Z.of_nat (length l)) k)) l.

Section Sorting.
Context {A : Type} (key : A -> Q).

(** [x] goes in front of the first element whose key is not above its
    own, so equal keys keep their order. *)
Fixpoint insert_desc (x : A) (l : list A) : list A :=
  match l with
  | [] => [x]
  | y :: l' =>
      if Qle_bool (key y) (key x) then x :: y :: l' else y :: insert_desc x l'
  end.

(** [sorted(l, key=key, reverse=True)] *)
Definition sorted_desc (l : list A) : list A := foldr insert_desc [] l.
End Sorting.

Definition type_boost : gmap string Q :=
  list_to_map
    [("research_paper", 12 # 10); ("technical_report", 11 # 10);
     ("wikipedia_article", 105 # 100); ("news_article", 1 # 1);
     ("summary", 95 # 100)]%Q.

(** The year the recency test looks for. *)
Definition reference_year : string := "2024".

Definition title_matches (query title : string) : Z :=
  let query_terms := split (lower (_extract_key_terms query)) in
  Z.of_nat (length (List.filter (fun term => contains term title) query_terms)).

Definition calculate_advanced_score (query : string) (result : search_result) : Q :=
  let base_score := r_similarity_score result in
  let content_type := default "unknown" (m_type (r_metadata result)) in
  let score := (base_score * default (1 # 1) (type_boost !! content_type))%Q in
  let date_str := default EmptyString (m_date (r_metadata result)) in
  let score :=
    if negb (is_empty date_str) && contains reference_year date_str
    then (score * (11 # 10))%Q else score in
  let content_length := len (r_content result) in
  let score :=
    if 2000 <? content_length then (score * (105 # 100))%Q
    else if content_length <? 500 then (score * (95 # 100))%Q
    else score in
  let title := lower (default EmptyString (m_title (r_metadata result))) in
  let n := title_matches query title in
  if 0 <? n then (score * (1 + (1 # 10) * inject_Z n))%Q else score.

Definition set_advanced_score (query : string) (result : search_result)
  : search_result :=
  {| r_id := r_id result; r_content := r_content result;
     r_metadata := r_metadata result; r_distance := r_distance result;
     r_similarity_score := r_similarity_score result;
     r_advanced_score := Some (calculate_advanced_score query result) |}.

(** The sort key [x['advanced_score']]; every element carries one here. *)
Definition advanced_key (x : search_result) : Q :=
  default (0 # 1)%Q (r_advanced_score x).

Definition _rerank_results (query : string) (results : list search_result)
  : list search_result :=
  sorted_desc advanced_key (map (set_advanced_score query) results).

Section Pipeline.
Context `{EmbeddingGateway} `{VectorIndex} `{ContentAggregator} `{Runtime}.

Definition content_hash (result : search_result) : Z :=
  py_hash (strip (lower (slice_to (r_content result) 200))).

(** The [for result in results] loop of [_deduplicate_results]. *)
Fixpoint dedup_loop (results : list search_result) (seen_content : gset Z)
    (deduplicated : list search_result) : list search_result :=
  match results with
  | [] => deduplicated
  | result :: rest =>
      let h := content_hash result in
      if bool_decide (h ∈ seen_content)
      then dedup_loop rest seen_content deduplicated
      else dedup_loop rest ({[h]} ∪ seen_content) (deduplicated ++ [result])
  end.

Definition _deduplicate_results (results : list search_result)
  : list search_result :=
  match results with
  | [] => results
  | _ => dedup_loop results ∅ []
  end.

Definition _generate_context_summary (query : string)
    (results : list search_result) : string :=
  match results with
  | [] => "No relevant context found for the query."
  | _ => summary_text query results
  end.

(** Everything inside the [try]; a raising aggregator gives []. *)
Definition _fetch_external_content (st : store) (query : string)
  : list fetched * store :=
  let key_terms := _extract_key_terms query in
  match gather_comprehensive_content key_terms with
  | None => ([], st)
  | Some external_content =>
      match external_content with
      | [] => (external_content, st)
      | _ => (external_content,
              (add_documents (map document_of_fetched external_content) st).2)
      end
  end.

Definition external_result (content : fetched) (similarity : Q) : search_result :=
  {| r_id := f_id content;
     r_content := f_content content;
     r_metadata :=
       {| m_document_id := None; m_chunk_index := None;
          m_title := Some (f_title content);
          m_author := Some (f_author content);
          m_date := Some (f_date content);
          m_topic := Some (f_topic content);
          m_type := Some (f_type content);
          m_source_url := Some (default EmptyString (f_source_url content));
          m_chunk_text := Some (slice_to (f_content content) 500);
          m_external_source := Some true |};
     r_distance := (1 - similarity)%Q;
     r_similarity_score := similarity;
     r_advanced_score := None |}.

Fixpoint convert_loop (external_content : list fetched) (query : string)
    (results : list search_result) : list search_result :=
  match external_content with
  | [] => results
  | content :: rest =>
      let query_embedding := _generate_embedding query in
      let content_embedding :=
        _generate_embedding (slice_to (f_content content) 1000) in
      match query_embedding, content_embedding with
      | _ :: _, _ :: _ =>
          let similarity := cosine query_embedding content_embedding in
          convert_loop rest query (results ++ [external_result content similarity])
      | _, _ => convert_loop rest query results
      end
  end.

Definition _convert_external_to_results (external_content : list fetched)
    (query : string) : list search_result :=
  sorted_desc r_similarity_score (convert_loop external_content query []).

Definition retrieve_relevant_context (st : store) (query : string)
    (k : option Z) (include_external rerank : bool)
  : retrieval_context * store :=
  let k := py_or k Config.TOP_K_RESULTS in
  let initial_results := similarity_search st query (Some (k * 2)) in
  let '(external_results, st) :=
    if include_external && (Z.of_nat (length initial_results) <? k) then
      let '(external_content, st) := _fetch_external_content st query in
      (_convert_external_to_results external_content query, st)
    else ([], st) in
  let all_results := initial_results ++ external_results in
  let deduplicated_results := _deduplicate_results all_results in
  let final_results :=
    if rerank && (k <? Z.of_nat (length deduplicated_results))
    then list_slice_to (_rerank_results query deduplicated_results) k
    else list_slice_to deduplicated_results k in
  let context_summary := _generate_context_summary query final_results in
  ({| rc_query := query;
      rc_results := final_results;
      rc_context_summary := context_summary;
      rc_total_results_found := Z.of_nat (length all_results);
      rc_external_sources_used := Z.of_nat (length external_results);
      rc_retrieval_metadata :=
        {| reranked := rerank;
           external_content_included := include_external;
           final_result_count := Z.of_nat (length final_results) |} |},
   st).

End Pipeline.

(** The same result with another [type] entry in its metadata
    ([None]: no such key), and with another [date] entry. *)
Definition with_metadata (m : metadata) (result : search_result) : search_result :=
  {| r_id := r_id result; r_content := r_content result;
     r_metadata := m; r_distance := r_distance result;
     r_similarity_score := r_similarity_score result;
     r_advanced_score := r_advanced_score result |}.

Definition with_type (t : option string) (result : search_result) : search_result :=
  let m := r_metadata result in
  with_metadata
    {| m_document_id := m_document_id m; m_chunk_index := m_chunk_index m;
       m_title := m_title m; m_author := m_author m; m_date := m_date m;
       m_topic := m_topic m; m_type := t; m_source_url := m_source_url m;
       m_chunk_text := m_chunk_text m;
       m_external_source := m_external_source m |} result.

Definition with_date (d : option string) (result : search_result) : search_result :=
  let m := r_metadata result in
  with_metadata
    {| m_document_id := m_document_id m; m_chunk_index := m_chunk_index m;
       m_title := m_title m; m_author := m_author m; m_date := d;
       m_topic := m_topic m; m_type := m_type m; m_source_url := m_source_url m;
       m_chunk_text := m_chunk_text m;
       m_external_source := m_external_source m |} result.

(** How a result carries its two scores: [similarity_score] computed
    as [1 - distance], the way [similarity_search] does, or, on a result
    marked as external, [distance] computed as [1 - similarity], the way
    [_convert_external_to_results] does.  The equations are between the
    terms as the code computes them, not up to arithmetic. *)
Definition scores_as_computed (r : search_result) : Prop :=
  r_similarity_score r = (1 - r_distance r)%Q \/
  (m_external_source (r_metadata r) = Some true /\
   r_distance r = (1 - r_similarity_score r)%Q).

(** The advanced score a result carries once [_rerank_results] has
    written it. *)
Definition reranked_score (query : string) (result : search_result) : Q :=
  advanced_key (set_advanced_score query result).

End Retriever.

(** ** memory_manager.py *)

Module MemoryManager.
Import PyStr VectorStore KeyTerms.

(** The tracked state.  [_save_memory_state] writes it to a file and
    changes none of it: saving is left out. *)
Record memory := {
  document_checksums : gmap string string;
  search_patterns : gmap string Z;
  popular_topics : gset string;
  last_update_time : Z
}.

(** Microseconds in [timedelta(days=1)]. *)
Definition day_us : Z := 86400000000.

(** Points in time are microseconds since 1970-01-01, as [datetime]
    counts them.  [datetime.min] is 0001-01-01 00:00:00 and
    [datetime.max] is 9999-12-31 23:59:59.999999. *)
Definition datetime_min : Z := -719162 * day_us.
Definition datetime_max : Z := 2932897 * day_us - 1.

(** [timedelta(days=n)]: [None] is the [OverflowError] beyond
    999999999 days. *)
Definition timedelta_days (n : Z) : option Z :=
  if (-999999999 <=? n) && (n <=? 999999999) then Some (n * day_us) else None.

(** [t - delta] on a [datetime]: [None] is the [OverflowError] of a
    result outside the years 1 to 9999. *)
Definition datetime_sub (t delta : Z) : option Z :=
  let r := t - delta in
  if (datetime_min <=? r) && (r <=? datetime_max) then Some r else None.

Section Manager.
Context `{EmbeddingGateway} `{VectorIndex} `{Runtime}.

Definition content_str (d : document) : string :=
  default EmptyString (d_title d)
  +:+ default EmptyString (d_content d)
  +:+ default EmptyString (d_author d).

Definition _calculate_document_checksum (d : document) : string :=
  md5_hexdigest (content_str d).

Definition count_term (patterns : gmap string Z) (term : string)
  : gmap string Z :=
  if 3 <? len term
  then <[term := default 0 (patterns !! term) + 1]> patterns
  else patterns.

Definition track_search_pattern (mm : memory) (query : string)
    (results_found : Z) : memory :=
  let key_terms := _extract_key_terms query in
  let patterns := foldl count_term (search_patterns mm) (split key_terms) in
  let reached := dom (filter (fun kv => 5 <= kv.2) patterns) in
  {| document_checksums := document_checksums mm;
     search_patterns := patterns;
     popular_topics := popular_topics mm ∪ reached;
     last_update_time := last_update_time mm |}.

Definition set_checksum (mm : memory) (doc_id checksum : string) : memory :=
  {| document_checksums := <[doc_id := checksum]> (document_checksums mm);
     search_patterns := search_patterns mm;
     popular_topics := popular_topics mm;
     last_update_time := last_update_time mm |}.

Definition pop_checksum (mm : memory) (doc_id : string) : memory :=
  {| document_checksums := delete doc_id (document_checksums mm);
     search_patterns := search_patterns mm;
     popular_topics := popular_topics mm;
     last_update_time := last_update_time mm |}.

Definition add_document_with_tracking (mm : memory) (st : store) (d : document)
  : list string * memory * store :=
  let doc_id := default EmptyString (d_id d) in
  if is_empty doc_id then ([], mm, st)
  else
    let checksum := _calculate_document_checksum d in
    let '(chunk_ids, st) := add_document d st in
    match chunk_ids with
    | [] => (chunk_ids, mm, st)
    | _ => (chunk_ids, set_checksum mm doc_id checksum, st)
    end.

Definition update_document_if_changed (mm : memory) (st : store) (d : document)
  : bool * memory * store :=
  let doc_id := default EmptyString (d_id d) in
  if is_empty doc_id then (false, mm, st)
  else
    let new_checksum := _calculate_document_checksum d in
    let old_checksum := document_checksums mm !! doc_id in
    if bool_decide (old_checksum ≠ Some new_checksum) then
      let '(chunk_ids, st) := update_document d st in
      match chunk_ids with
      | [] => (false, mm, st)
      | _ => (true, set_checksum mm doc_id new_checksum, st)
      end
    else (false, mm, st).

(** The document id a chunk's metadata votes out, if any: the date is
    there, parses, lies before the cutoff, and the id is not empty. *)
Definition outdated_vote (cutoff_date : Z) (m : metadata) : option string :=
  let doc_date_str := default EmptyString (m_date m) in
  if is_empty doc_date_str then None
  else
    match strptime_ymd doc_date_str with
    | None => None
    | Some doc_date =>
        if doc_date <? cutoff_date then
          let doc_id := default EmptyString (m_document_id m) in
          if is_empty doc_id then None else Some doc_id
        else None
    end.

Definition collect_outdated (cutoff_date : Z) (metadatas : list metadata)
  : gset string :=
  foldl
    (fun outdated_doc_ids m =>
       match outdated_vote cutoff_date m with
       | Some doc_id => {[doc_id]} ∪ outdated_doc_ids
       | None => outdated_doc_ids
       end)
    ∅ metadatas.

Definition remove_outdated (acc : memory * store) (doc_id : string)
  : memory * store :=
  let '(deleted, st) := delete_document doc_id acc.2 in
  if deleted then (pop_checksum acc.1 doc_id, st) else (acc.1, st).

(** [cutoff_date = datetime.now() - timedelta(days=max_age_days)] *)
Definition cutoff (now max_age_days : Z) : option Z :=
  match timedelta_days max_age_days with
  | Some delta => datetime_sub now delta
  | None => None
  end.

(** [cleanup_outdated_content]: the body is one [try], whose [except]
    branch only prints, so a [collection.get] that raises or a cutoff
    that overflows ends the call before any document is looked at. *)
Definition cleanup_outdated_content (mm : memory) (st : store) (now : Z)
    (max_age_days : Z) : memory * store :=
  if index_get_rejects ["metadatas"] then (mm, st)
  else
    let metadatas :=
      map (fun kv => row_metadata kv.2) (map_to_list (collection st)) in
    match metadatas with
    | [] => (mm, st)
    | _ =>
        match cutoff now max_age_days with
        | None => (mm, st)
        | Some cutoff_date =>
            let outdated_doc_ids := collect_outdated cutoff_date metadatas in
            foldl remove_outdated (mm, st) (elements outdated_doc_ids)
        end
    end.

End Manager.
End MemoryManager.

(** ** Concrete inputs used by the examples *)

Module Scenarios.

Definition news_metadata : metadata :=
  {| m_document_id := Some "doc1"; m_chunk_index := Some 0;
     m_title := Some "Vector search in practice";
     m_author := Some "A. Writer"; m_date := Some "2024-03-01";
     m_topic := Some "search"; m_type := Some "news_article";
     m_source_url := None; m_chunk_text := Some "Vector search";
     m_external_source := None |}.

(** A hit at distance 3/2: its similarity score is negative. *)
Definition far_result : search_result :=
  {| r_id := "doc1_chunk_0"; r_content := "Vector search";
     r_metadata := news_metadata; r_distance := 3 # 2;
     r_similarity_score := (1 - (3 # 2))%Q; r_advanced_score := None |}.

(** A hit at distance 1/4. *)
Definition near_result : search_result :=
  {| r_id := "doc1_chunk_0"; r_content := "Vector search";
     r_metadata := news_metadata; r_distance := 1 # 4;
     r_similarity_score := (1 - (1 # 4))%Q; r_advanced_score := None |}.

(** [strptime(s, '%Y-%m-%d')] at midnight, counted from 1970-01-01 by
    the civil calendar: four digits for the year, a dash, the month as
    one or two digits, a dash, the day as one or two digits or a blank
    and a digit, nothing after it; the date has to exist. *)
Definition digit (c : ascii) : option Z :=
  if PyStr.isdigit c then Some (Z.of_nat (PyStr.code c) - 48) else None.

Definition is_leap (y : Z) : bool :=
  ((y mod 4 =? 0) && negb (y mod 100 =? 0)) || (y mod 400 =? 0).

Definition days_in_month (y m : Z) : Z :=
  if m =? 2 then (if is_leap y then 29 else 28)
  else if (m =? 4) || (m =? 6) || (m =? 9) || (m =? 11) then 30 else 31.

Definition days_from_civil (y m d : Z) : Z :=
  let y' := if m <=? 2 then y - 1 else y in
  let era := y' / 400 in
  let yoe := y' - era * 400 in
  let doy := (153 * (if 2 <? m then m - 3 else m + 9) + 2) / 5 + d - 1 in
  let doe := yoe * 365 + yoe / 4 - yoe / 100 + doy in
  era * 146097 + doe - 719468.

Definition is_dash (c : ascii) : bool := (PyStr.code c =? 45)%nat.

(** The characters before the first dash, and what follows that dash. *)
Fixpoint until_dash (cs : list ascii) : list ascii * option (list ascii) :=
  match cs with
  | [] => ([], None)
  | c :: cs' =>
      if is_dash c then ([], Some cs')
      else let '(before, after) := until_dash cs' in (c :: before, after)
  end.

(** One or two digits. *)
Definition number_field (cs : list ascii) : option Z :=
  match cs with
  | [a] => digit a
  | [a; b] =>
      match digit a, digit b with
      | Some x, Some y => Some (10 * x + y)
      | _, _ => None
      end
  | _ => None
  end.

Definition day_field (cs : list ascii) : option Z :=
  match cs with
  | [a; b] => if (PyStr.code a =? 32)%nat then digit b else number_field cs
  | _ => number_field cs
  end.

Definition parse_iso_date (s : string) : option Z :=
  match list_ascii_of_string s with
  | y1 :: y2 :: y3 :: y4 :: h :: rest =>
      match digit y1, digit y2, digit y3, digit y4, until_dash rest with
      | Some a, Some b, Some c, Some e, (month, Some day) =>
          match number_field month, day_field day with
          | Some m, Some d =>
              let y := a * 1000 + b * 100 + c * 10 + e in
              if is_dash h && (1 <=? y) && (1 <=? m) && (m <=? 12)
                 && (1 <=? d) && (d <=? days_in_month y m)
              then Some (days_from_civil y m d * MemoryManager.day_us)
              else None
          | _, _ => None
          end
      | _, _, _, _, _ => None
      end
  | _ => None
  end.

Definition char_sum (s : string) : Z :=
  foldr (fun c acc => Z.of_nat (PyStr.code c) + 31 * acc) 7
    (list_ascii_of_string s).

(** Stand-ins for the library functions: [md5_hexdigest] is the
    identity (no two texts collide). *)
Definition plain_runtime : Runtime :=
  {| uuid4 := fun n => "uuid-" +:+ VectorStore.str_of_nat n;
     py_hash := char_sum;
     md5_hexdigest := fun s => s;
     cosine := fun _ _ => (1 # 2)%Q;
     strptime_ymd := parse_iso_date;
     summary_text := fun _ _ => "Found relevant sources." |}.

(** What a [collection.get] of the engine may be asked to include;
    the ids always come with the answer and are not among the names. *)
Definition get_include : list string :=
  ["embeddings"; "documents"; "metadatas"; "uris"; "data"].

(** An engine that takes every row, answers a query with its first [k]
    rows at distance 1/4, and raises on a [get] whose [include] list
    holds another name than those of [get_include]. *)
Definition plain_index : VectorIndex :=
  {| index_rejects := fun _ _ _ => false;
     index_query := fun c _ k =>
       Some (take (Z.to_nat k)
               (map (fun kv : string * row => (kv.1, kv.2, (1 # 4)%Q))
                  (map_to_list c)));
     index_get_rejects := fun include =>
       negb (forallb (fun name => bool_decide (name ∈ get_include)) include) |}.

(** The same engine, but one whose [get] takes any [include] list. *)
Definition lenient_index : VectorIndex :=
  {| index_rejects := fun _ _ _ => false;
     index_query := @index_query plain_index;
     index_get_rejects := fun _ => false |}.

Definition gateway_up : EmbeddingGateway :=
  {| embeddings_create := fun text => Some [(1 # 1)%Q; inject_Z (PyStr.len text)] |}.

Definition gateway_down : EmbeddingGateway :=
  {| embeddings_create := fun _ => None |}.

(** A provider that fails on every text that starts with "alpha". *)
Definition gateway_no_alpha : EmbeddingGateway :=
  {| embeddings_create := fun text =>
       if String.prefix "alpha" text then None
       else Some [(1 # 1)%Q; inject_Z (PyStr.len text)] |}.

Definition quiet_aggregator : ContentAggregator :=
  {| gather_comprehensive_content := fun _ => Some [] |}.

Definition empty_store : store :=
  {| collection := ∅; index_log := []; uuid_calls := 0 |}.

Fixpoint times (n : nat) (s : string) : string :=
  match n with O => EmptyString | S n' => s +:+ times n' s end.

(** 1200 characters: two chunks, the first starts with "alpha". *)
Definition two_chunk_document : document :=
  {| d_id := Some "doc1"; d_title := Some "Greek letters";
     d_content := Some (times 100 "alpha " +:+ times 100 "omega ");
     d_author := Some "A. Writer"; d_date := Some "2024-03-01";
     d_topic := Some "letters"; d_type := Some "summary";
     d_source_url := None |}.

Definition note_document : document :=
  {| d_id := Some "note1"; d_title := Some "Note";
     d_content := Some "Chunks are embedded one by one.";
     d_author := Some "A. Writer"; d_date := Some "2024-03-01";
     d_topic := Some "notes"; d_type := Some "summary";
     d_source_url := None |}.

Definition almost_popular : MemoryManager.memory :=
  {| MemoryManager.document_checksums := ∅;
     MemoryManager.search_patterns := {["vector" := 4]};
     MemoryManager.popular_topics := ∅;
     MemoryManager.last_update_time := 0 |}.

Definition empty_memory : MemoryManager.memory :=
  {| MemoryManager.document_checksums := ∅;
     MemoryManager.search_patterns := ∅;
     MemoryManager.popular_topics := ∅;
     MemoryManager.last_update_time := 0 |}.

(** Track-and-add of a list of documents, provider and engine up. *)
Definition track_all (docs : list document) : MemoryManager.memory * store :=
  foldl
    (fun acc d =>
       let r := @MemoryManager.add_document_with_tracking gateway_up plain_index
                  plain_runtime acc.1 acc.2 d in
       (r.1.2, r.2))
    (empty_memory, empty_store) docs.

Definition tracked_note : MemoryManager.memory * store :=
  track_all [note_document].

Definition dated_document (id date : string) : document :=
  {| d_id := Some id; d_title := Some ("Report " +:+ id);
     d_content := Some ("Quarterly figures, report " +:+ id +:+ ".");
     d_author := Some "A. Writer"; d_date := Some date;
     d_topic := Some "reports"; d_type := Some "technical_report";
     d_source_url := None |}.

(** 2024-06-15, midnight and noon. *)
Definition today : Z := days_from_civil 2024 6 15 * MemoryManager.day_us.
Definition noon : Z := today + 12 * 3600 * 1000000.

(** Five documents dated 10, 45, 91, 120 and 200 days before [today]. *)
Definition aged_documents : list document :=
  [dated_document "d10" "2024-06-05"; dated_document "d45" "2024-05-01";
   dated_document "d91" "2024-03-16"; dated_document "d120" "2024-02-16";
   dated_document "d200" "2023-11-28"].

Definition aged : MemoryManager.memory * store := track_all aged_documents.

(** The note with its last character changed. *)
Definition revised_note : document :=
  VectorStore.with_content "Chunks are embedded one by one!" note_document.

(** A news item of 600 characters whose title shares no term with the
    query "vector search", found at similarity 1/2. *)
Definition dated_result (date : string) : search_result :=
  {| r_id := "news_digest_0"; r_content := times 100 "omega ";
     r_metadata :=
       {| m_document_id := None; m_chunk_index := None;
          m_title := Some "Weekly digest"; m_author := Some "News Desk";
          m_date := Some date; m_topic := Some "digest";
          m_type := Some "news_article"; m_source_url := Some EmptyString;
          m_chunk_text := Some (PyStr.slice_to (times 100 "omega ") 500);
          m_external_source := Some true |};
     r_distance := 1 # 2; r_similarity_score := 1 # 2;
     r_advanced_score := None |}.

End Scenarios.

(** ** Further functions of the sources *)

From Stdlib Require DecimalNat.
From Stdlib Require Import Sorted.

Module TextFacts.
Import PyStr.

(** Every character is a blank (also true of the empty text). *)
Fixpoint all_blank (s : string) : bool :=
  match s with
  | EmptyString => true
  | String c s' => isspace c && all_blank s'
  end.

End TextFacts.

Module StoreQueries.

(** [ChromaVectorStore.get_document_by_id]: [collection.get(ids=[doc_id])]
    looks the id up among the keys of the collection, which are chunk
    ids; an empty answer is [None], and so is a [get] that raises. *)
Definition get_document_by_id `{VectorIndex} (doc_id : string) (st : store)
  : option (string * string * metadata) :=
  if index_get_rejects ["documents"; "metadatas"] then None
  else
    match collection st !! doc_id with
    | Some r => Some (doc_id, row_document r, row_metadata r)
    | None => None
    end.

End StoreQueries.

Module Maintenance.
Import PyStr VectorStore MemoryManager.

Section Upkeep.
Context `{VectorIndex} `{Runtime}.

(** One turn of the loop of [_remove_duplicate_chunks] that looks for
    duplicates: [content_to_ids] maps the md5 of a content to the first
    chunk id seen with it. *)
Definition note_duplicate (acc : gmap string string * list string)
    (kv : string * row) : gmap string string * list string :=
  let content_hash := md5_hexdigest (row_document kv.2) in
  let chunk_id := kv.1 in
  if bool_decide (is_Some (acc.1 !! content_hash))
  then (acc.1, acc.2 ++ [chunk_id])
  else (<[content_hash := chunk_id]> acc.1, acc.2).

Definition find_duplicates (rows : list (string * row))
  : gmap string string * list string :=
  foldl note_duplicate (∅, []) rows.

(** [MemoryManager._remove_duplicate_chunks]; the rows come in the order
    in which the collection lists them.  The body is one [try]: when
    [collection.get(include=['documents', 'ids'])] raises, the [except]
    branch prints and nothing was removed. *)
Definition _remove_duplicate_chunks (st : store) : store :=
  if index_get_rejects ["documents"; "ids"] then st
  else
    let rows := map_to_list (collection st) in
    match rows with
    | [] => st
    | _ =>
        let duplicate_ids := (find_duplicates rows).2 in
        match duplicate_ids with
        | [] => st
        | _ =>
            {| collection :=
                 filter (fun kv => kv.1 ∉ duplicate_ids) (collection st);
               index_log := index_log st ++ [CallDelete duplicate_ids];
               uuid_calls := uuid_calls st |}
        end
    end.

(** [MemoryManager.optimize_vector_store]: the consolidation of similar
    chunks above 10000 chunks only prints that it is not implemented. *)
Definition optimize_vector_store (st : store) : store :=
  _remove_duplicate_chunks st.

End Upkeep.

(** The order in which [list(s)] lists a set of strings: some order,
    each element once. *)
Class SetOrder := {
  set_list : gset string -> list string;
  set_list_perm : forall s, set_list s ≡ₚ elements s
}.

Definition with_last_update (mm : memory) (t : Z) : memory :=
  {| document_checksums := document_checksums mm;
     search_patterns := search_patterns mm;
     popular_topics := popular_topics mm;
     last_update_time := t |}.

(** [mm'] tracks every document [mm] tracks and differs in nothing but
    the checksums. *)
Definition tracks_more (mm mm' : memory) : Prop :=
  dom (document_checksums mm) ⊆ dom (document_checksums mm') /\
  search_patterns mm' = search_patterns mm /\
  popular_topics mm' = popular_topics mm /\
  last_update_time mm' = last_update_time mm.

Definition hour_us : Z := 3600000000.

Section Refresh.
Context `{EmbeddingGateway} `{VectorIndex} `{ContentAggregator} `{Runtime}
        `{SetOrder}.

(** The body of [for content in fresh_content]. *)
Definition refresh_item (acc : Z * memory * store) (content : fetched)
  : Z * memory * store :=
  let '(refreshed_count, mm, st) := acc in
  let content_id := f_id content in
  if bool_decide (content_id ∈ dom (document_checksums mm)) then
    let '(changed, mm, st) :=
      update_document_if_changed mm st (document_of_fetched content) in
    (if changed then refreshed_count + 1 else refreshed_count, mm, st)
  else
    let '(chunk_ids, mm, st) :=
      add_document_with_tracking mm st (document_of_fetched content) in
    (match chunk_ids with [] => refreshed_count | _ => refreshed_count + 1 end,
     mm, st).

(** The body of [for topic in ...]: an exception of the aggregator is
    caught and the topic skipped. *)
Definition refresh_topic (acc : Z * memory * store) (topic : string)
  : Z * memory * store :=
  match gather_comprehensive_content topic with
  | None => acc
  | Some fresh_content => foldl refresh_item acc fresh_content
  end.

(** [MemoryManager.auto_refresh_popular_content]; [now] is the clock
    read at the end. *)
Definition auto_refresh_popular_content (mm : memory) (st : store) (now : Z)
  : memory * store :=
  if bool_decide (popular_topics mm = ∅) then (mm, st)
  else
    let '(refreshed_count, mm, st) :=
      foldl refresh_topic (0, mm, st) (take 3 (set_list (popular_topics mm))) in
    (with_last_update mm now, st).

(** [MemoryManager.force_update] *)
Definition force_update (mm : memory) (st : store) (now_refresh now_cleanup : Z)
  : memory * store :=
  let '(mm, st) := auto_refresh_popular_content mm st now_refresh in
  cleanup_outdated_content mm st now_cleanup 90.

(** One turn of [_background_update_loop] without its sleep: [now],
    [now_refresh] and [now_cleanup] are the clock as read by the loop,
    by the refresh and by the cleanup; the hours elapsed are compared
    in microseconds. *)
Definition update_cycle (mm : memory) (st : store)
    (now now_refresh now_cleanup : Z) : memory * store :=
  let elapsed := now - last_update_time mm in
  if 24 * hour_us <=? elapsed then
    let '(mm, st) := auto_refresh_popular_content mm st now_refresh in
    let '(mm, st) :=
      if 168 * hour_us <=? elapsed
      then cleanup_outdated_content mm st now_cleanup 90
      else (mm, st) in
    let st := if 720 * hour_us <=? elapsed then optimize_vector_store st else st in
    (mm, st)
  else (mm, st).

End Refresh.
End Maintenance.

Module MoreScenarios.

(** "vector" was searched five times and is a popular topic. *)
Definition popular_memory : MemoryManager.memory :=
  {| MemoryManager.document_checksums := ∅;
     MemoryManager.search_patterns := {["vector" := 5]};
     MemoryManager.popular_topics := {["vector"]};
     MemoryManager.last_update_time := 0 |}.

(** Two fetched items; the provider below fails on the second. *)
Definition fetched_paper : fetched :=
  {| f_id := "paper_vectors_0"; f_title := "Vectors in retrieval";
     f_content := "Dense vectors rank passages."; f_author := "Research Team";
     f_date := "2024-02-01"; f_topic := "vectors"; f_type := "research_paper";
     f_source_url := None |}.

Definition fetched_news : fetched :=
  {| f_id := "news_vectors_0"; f_title := "Vectors in the news";
     f_content := "alpha release of a vector engine."; f_author := "News Desk";
     f_date := "2024-02-02"; f_topic := "vectors"; f_type := "news_article";
     f_source_url := Some "https://example.org/news" |}.

(** A document given without an id. *)
Definition anonymous_document : document :=
  {| d_id := None; d_title := Some "Untitled";
     d_content := Some "A note without an id."; d_author := None;
     d_date := None; d_topic := None; d_type := None; d_source_url := None |}.

(** Two documents with the same content, both stored. *)
Definition twin_store : store :=
  (@VectorStore.add_documents Scenarios.gateway_up Scenarios.plain_index
     Scenarios.plain_runtime
     [Scenarios.note_document;
      VectorStore.with_content "Chunks are embedded one by one."
        (Scenarios.dated_document "other" "2024-01-01")]
     Scenarios.empty_store).2.

Definition listed_order : Maintenance.SetOrder :=
  {| Maintenance.set_list := elements;
     Maintenance.set_list_perm := fun s => Permutation_refl (elements s) |}.

Definition stocked_aggregator : ContentAggregator :=
  {| gather_comprehensive_content := fun _ => Some [fetched_paper; fetched_news] |}.

Definition failing_aggregator : ContentAggregator :=
  {| gather_comprehensive_content := fun _ => None |}.

End MoreScenarios.

(** * Properties *)

(** ** The chunker *)

Module ChunkerFacts.
Import PyStr Chunker.

Lemma next_start_progress text chunk_size overlap start :
  start < next_start text chunk_size overlap start.
Proof. unfold next_start. lia. Qed.

(** Enough fuel: one turn per remaining character. *)
Lemma chunk_loop_returns fuel : forall text chunk_size overlap start chunks,
  len text - start <= Z.of_nat fuel ->
  exists result, chunk_loop fuel text chunk_size overlap start chunks = Some result.
Proof.
  induction fuel as [|fuel IH]; intros text chunk_size overlap start chunks Hfuel;
    cbn [chunk_loop].
  - destruct (start <? len text) eqn:Hlt; [apply Z.ltb_lt in Hlt; lia | eauto].
  - destruct (start <? len text) eqn:Hlt; [|eauto].
    destruct (len text <=? next_start text chunk_size overlap start) eqn:Hout;
      [eauto|].
    apply IH. apply Z.leb_gt in Hout.
    pose proof (next_start_progress text chunk_size overlap start). lia.
Qed.

Lemma chunk_loop_fuel_irrelevant fuel1 : forall fuel2 text chunk_size overlap start chunks,
  len text - start <= Z.of_nat fuel1 ->
  len text - start <= Z.of_nat fuel2 ->
  chunk_loop fuel1 text chunk_size overlap start chunks
  = chunk_loop fuel2 text chunk_size overlap start chunks.
Proof.
  induction fuel1 as [|fuel1 IH]; intros fuel2 text chunk_size overlap start chunks H1 H2.
  - cbn [chunk_loop]. destruct (start <? len text) eqn:Hlt.
    + apply Z.ltb_lt in Hlt; lia.
    + destruct fuel2; cbn [chunk_loop]; now rewrite Hlt.
  - destruct fuel2 as [|fuel2]; cbn [chunk_loop];
      destruct (start <? len text) eqn:Hlt; try reflexivity.
    + apply Z.ltb_lt in Hlt; lia.
    + destruct (len text <=? next_start text chunk_size overlap start) eqn:Hout;
        [reflexivity|].
      pose proof (next_start_progress text chunk_size overlap start).
      apply IH; lia.
Qed.

Lemma first_char_lstrip s c :
  first_char (lstrip s) = Some c -> isspace c = false.
Proof.
  induction s as [|a s IH]; cbn [lstrip]; [discriminate|].
  destruct (isspace a) eqn:Ha; [exact IH|].
  cbn. intros [= <-]. exact Ha.
Qed.

Lemma first_char_rstrip s c :
  first_char (rstrip s) = Some c -> first_char s = Some c.
Proof.
  destruct s as [|a s]; cbn [rstrip]; [discriminate|].
  destruct (rstrip s); [destruct (isspace a)|]; cbn; congruence.
Qed.

Lemma last_char_rstrip s c :
  last_char (rstrip s) = Some c -> isspace c = false.
Proof.
  induction s as [|a s IH]; cbn [rstrip]; [discriminate|].
  destruct (rstrip s) as [|b r] eqn:Hr.
  - destruct (isspace a) eqn:Ha; cbn; [discriminate|]. intros [= <-]. exact Ha.
  - exact IH.
Qed.

Lemma strip_trimmed s : trimmed (strip s).
Proof.
  split; intros c Hc.
  - eapply first_char_lstrip, first_char_rstrip, Hc.
  - eapply last_char_rstrip, Hc.
Qed.

Lemma emit_clean text chunk_size start chunks :
  Forall clean chunks -> Forall clean (emit text chunk_size start chunks).
Proof.
  intros Hall. unfold emit.
  destruct (strip (slice text start (window_end text chunk_size start)))
    as [|a s] eqn:Hs; cbn [is_empty]; [exact Hall|].
  apply Forall_app. split; [exact Hall|].
  constructor; [|constructor].
  split; [discriminate|]. rewrite <- Hs. apply strip_trimmed.
Qed.

Lemma chunk_loop_clean fuel : forall text chunk_size overlap start chunks result,
  Forall clean chunks ->
  chunk_loop fuel text chunk_size overlap start chunks = Some result ->
  Forall clean result.
Proof.
  induction fuel as [|fuel IH]; intros text chunk_size overlap start chunks result Hall;
    cbn [chunk_loop]; destruct (start <? len text); try congruence.
  destruct (len text <=? next_start text chunk_size overlap start).
  - intros [= <-]. now apply emit_clean.
  - apply IH. now apply emit_clean.
Qed.

End ChunkerFacts.

(** C5: whatever the text, the chunk size (positive or not) and the
    overlap (also when it is at least the chunk size), a turn of the
    chunking loop that does not leave it goes on from
    [max(start + 1, window_end - overlap)], which lies strictly after
    [start]; and the chunker returns: a number of turns equal to the
    length of the text is enough, and more turns change nothing. *)
Theorem chunk_text_progress_and_termination
    (text : string) (chunk_size overlap : option Z) :
  (forall fuel cs ov start chunks,
      let start' := Z.max (start + 1) (Chunker.window_end text cs start - ov) in
      start < start' /\
      Chunker.chunk_loop (S fuel) text cs ov start chunks
      = if start <? PyStr.len text then
          if PyStr.len text <=? start'
          then Some (Chunker.emit text cs start chunks)
          else Chunker.chunk_loop fuel text cs ov start'
                 (Chunker.emit text cs start chunks)
        else Some chunks) /\
  (exists chunks,
      Chunker._chunk_text text chunk_size overlap = chunks /\
      forall extra,
        Chunker.chunk_text_fuel (String.length text + extra) text
          chunk_size overlap = Some chunks).
Proof.
  split.
  - intros fuel cs ov start chunks start'. split; [subst start'; lia|].
    reflexivity.
  - unfold Chunker._chunk_text, Chunker.chunk_text_fuel.
    destruct (PyStr.len text <=? py_or chunk_size Config.CHUNK_SIZE).
    + eexists. split; reflexivity.
    + destruct (ChunkerFacts.chunk_loop_returns (String.length text) text
                  (py_or chunk_size Config.CHUNK_SIZE)
                  (py_or overlap Config.CHUNK_OVERLAP) 0 [])
        as [result Hresult]; [unfold PyStr.len; lia|].
      exists result. rewrite Hresult. split; [reflexivity|].
      intros extra. rewrite <- Hresult.
      apply ChunkerFacts.chunk_loop_fuel_irrelevant; unfold PyStr.len; lia.
Qed.

(** C10, as the code has it: when the text is longer than the chunk size,
    every returned chunk is non-empty and has no blank at either end;
    when it is not longer, the text itself is returned as the only
    element, untouched. *)
Theorem chunk_text_chunks_clean (text : string) (chunk_size overlap : option Z) :
  (py_or chunk_size Config.CHUNK_SIZE < PyStr.len text ->
   Forall Chunker.clean (Chunker._chunk_text text chunk_size overlap)) /\
  (PyStr.len text <= py_or chunk_size Config.CHUNK_SIZE ->
   Chunker._chunk_text text chunk_size overlap = [text]).
Proof.
  unfold Chunker._chunk_text, Chunker.chunk_text_fuel. split; intros Hlen.
  - apply Z.leb_gt in Hlen. rewrite Hlen.
    destruct (Chunker.chunk_loop _ _ _ _ _ _) as [result|] eqn:Hresult;
      [|constructor].
    eapply ChunkerFacts.chunk_loop_clean; [|exact Hresult]. constructor.
  - apply Z.leb_le in Hlen. rewrite Hlen. reflexivity.
Qed.

Lemma chunk_text_chunks_clean_witness :
  Forall Chunker.clean
    (Chunker._chunk_text "aaaa bbbb. cccc dddd eeee ffff" (Some 10) (Some 3)) /\
  Chunker._chunk_text " a " None None = [" a "].
Proof.
  split.
  - apply (chunk_text_chunks_clean "aaaa bbbb. cccc dddd eeee ffff" (Some 10) (Some 3)).
    vm_compute. reflexivity.
  - apply (chunk_text_chunks_clean " a " None None). vm_compute. discriminate.
Defined.

(** C10 as stated fails on a short text: it comes back with its blanks. *)
Lemma chunk_text_short_text_not_trimmed :
  Chunker._chunk_text " a " None None = [" a "] /\
  ~ Forall Chunker.clean (Chunker._chunk_text " a " None None).
Proof.
  split; [reflexivity|].
  intros Hall. apply Forall_inv in Hall. destruct Hall as [_ [Hfirst _]].
  specialize (Hfirst " "%char eq_refl). vm_compute in Hfirst. discriminate.
Qed.

(** ** Deduplication *)

Section DedupFacts.
Context `{Runtime}.
Import Retriever.

Lemma dedup_loop_acc results : forall seen deduplicated,
  dedup_loop results seen deduplicated
  = deduplicated ++ dedup_loop results seen [].
Proof.
  induction results as [|r rest IH]; intros seen acc; cbn [dedup_loop].
  - now rewrite app_nil_r.
  - case_bool_decide; [apply IH|].
    rewrite (IH _ (acc ++ [r])), (IH _ ([] ++ [r])).
    now rewrite <- app_assoc.
Qed.

Lemma dedup_loop_fresh results : forall seen x,
  x ∈ dedup_loop results seen [] -> content_hash x ∉ seen.
Proof.
  induction results as [|r rest IH]; intros seen x; cbn [dedup_loop].
  - intros Hx. inversion Hx.
  - case_bool_decide as Hseen; [apply IH|].
    rewrite dedup_loop_acc. cbn [app].
    intros [->|Hx]%elem_of_cons; [exact Hseen|].
    apply IH in Hx. set_solver.
Qed.

Lemma dedup_loop_nodup results : forall seen,
  NoDup (content_hash <$> dedup_loop results seen []).
Proof.
  induction results as [|r rest IH]; intros seen; cbn [dedup_loop].
  - constructor.
  - case_bool_decide; [apply IH|].
    rewrite dedup_loop_acc. cbn [app fmap list_fmap].
    constructor; [|apply IH].
    intros (x & Hhash & Hx)%list_elem_of_fmap.
    apply dedup_loop_fresh in Hx. set_solver.
Qed.

Lemma dedup_loop_sublist results : forall seen,
  sublist (dedup_loop results seen []) results.
Proof.
  induction results as [|r rest IH]; intros seen; cbn [dedup_loop].
  - constructor.
  - case_bool_decide.
    + apply sublist_cons, IH.
    + rewrite dedup_loop_acc. cbn [app]. apply sublist_skip, IH.
Qed.

Lemma dedup_loop_idempotent results : forall seen,
  dedup_loop (dedup_loop results seen []) seen [] = dedup_loop results seen [].
Proof.
  induction results as [|r rest IH]; intros seen; cbn [dedup_loop].
  - reflexivity.
  - case_bool_decide as Hseen; [apply IH|].
    rewrite (dedup_loop_acc rest). cbn [app dedup_loop].
    rewrite bool_decide_eq_false_2 by exact Hseen.
    rewrite (dedup_loop_acc (dedup_loop _ _ _)). cbn [app]. now rewrite IH.
Qed.

Lemma deduplicate_results_loop results :
  _deduplicate_results results = dedup_loop results ∅ [].
Proof. now destruct results. Qed.

(** C6: deduplicating twice gives what deduplicating once gives; the
    result keeps the order of the candidates (it is a sublist of them)
    and holds one result per hash of the lowercased, stripped first 200
    characters of the content. *)
Theorem deduplicate_results_idempotent (results : list search_result) :
  _deduplicate_results (_deduplicate_results results)
  = _deduplicate_results results /\
  sublist (_deduplicate_results results) results /\
  NoDup (content_hash <$> _deduplicate_results results).
Proof.
  rewrite !deduplicate_results_loop.
  split; [apply dedup_loop_idempotent|].
  split; [apply dedup_loop_sublist | apply dedup_loop_nodup].
Qed.

End DedupFacts.

(** ** Reranking *)

Module RerankFacts.
Import PyStr Retriever.
Local Open Scope Q_scope.

Lemma type_boost_research_paper :
  type_boost !! "research_paper" = Some (12 # 10).
Proof. reflexivity. Qed.

Lemma type_boost_at_most t : default (1 # 1) (type_boost !! t) <= 12 # 10.
Proof.
  unfold type_boost. cbn [list_to_map foldr curry fst snd uncurry].
  repeat (rewrite lookup_insert; case_decide; [cbn; discriminate|]).
  rewrite lookup_empty. cbn. discriminate.
Qed.

Lemma type_boost_positive t : 0 < default (1 # 1) (type_boost !! t).
Proof.
  unfold type_boost. cbn [list_to_map foldr curry fst snd uncurry].
  repeat (rewrite lookup_insert; case_decide; [cbn; reflexivity|]).
  rewrite lookup_empty. reflexivity.
Qed.

Lemma title_factor_positive n : (0 < n)%Z -> 0 < 1 + (1 # 10) * inject_Z n.
Proof.
  intros Hn. rewrite (Zlt_Qlt 0 n) in Hn.
  apply Qlt_trans with (1 # 1); [reflexivity|].
  rewrite <- (Qplus_0_r (1 # 1)) at 1.
  apply Qplus_lt_r.
  rewrite <- (Qmult_0_r (1 # 10)). apply Qmult_lt_l; [reflexivity|exact Hn].
Qed.

(** The length boost and the title boost keep the order of two scores. *)
Lemma later_steps (c1 c2 : bool) (n : Z) (d1 d2 : Q) :
  d1 <= d2 ->
  (let l := if c1 then d1 * (105 # 100) else if c2 then d1 * (95 # 100) else d1 in
   if (0 <? n)%Z then l * (1 + (1 # 10) * inject_Z n) else l)
  <= (let l := if c1 then d2 * (105 # 100) else if c2 then d2 * (95 # 100) else d2 in
      if (0 <? n)%Z then l * (1 + (1 # 10) * inject_Z n) else l).
Proof.
  intros Hle. cbv zeta.
  assert (Hlen : (if c1 then d1 * (105 # 100) else if c2 then d1 * (95 # 100) else d1)
                 <= (if c1 then d2 * (105 # 100) else if c2 then d2 * (95 # 100) else d2)).
  { destruct c1, c2; try exact Hle; apply Qmult_le_compat_r; try exact Hle; discriminate. }
  destruct (0 <? n)%Z eqn:Hn; [|exact Hlen].
  apply Qmult_le_compat_r; [exact Hlen|].
  apply Qlt_le_weak, title_factor_positive. now apply Z.ltb_lt.
Qed.

(** The boosts after the type boost keep the order of two scores. *)
Lemma later_boosts_monotone query result t1 t2 :
  r_similarity_score result * default (1 # 1) (type_boost !! default "unknown" t1)
  <= r_similarity_score result * default (1 # 1) (type_boost !! default "unknown" t2) ->
  calculate_advanced_score query (with_type t1 result)
  <= calculate_advanced_score query (with_type t2 result).
Proof.
  intros Hle. unfold calculate_advanced_score.
  cbn -[type_boost contains title_matches is_empty len lower Qle Qmult].
  remember (r_similarity_score result
            * default (1 # 1) (type_boost !! default "unknown" t1)) as s1.
  remember (r_similarity_score result
            * default (1 # 1) (type_boost !! default "unknown" t2)) as s2.
  clear Heqs1 Heqs2.
  destruct (negb (is_empty (default EmptyString (m_date (r_metadata result))))
            && contains reference_year
                 (default EmptyString (m_date (r_metadata result)))).
  - apply later_steps. apply Qmult_le_compat_r; [exact Hle|discriminate].
  - apply later_steps. exact Hle.
Qed.

Lemma insert_desc_perm {A} (key : A -> Q) x l :
  insert_desc key x l ≡ₚ x :: l.
Proof.
  induction l as [|y l IH]; cbn [insert_desc]; [reflexivity|].
  destruct (Qle_bool (key y) (key x)); [reflexivity|].
  rewrite IH. apply Permutation_swap.
Qed.

Lemma sorted_desc_perm {A} (key : A -> Q) (l : list A) :
  sorted_desc key l ≡ₚ l.
Proof.
  induction l as [|x l IH]; cbn [sorted_desc foldr]; [reflexivity|].
  rewrite insert_desc_perm. now constructor.
Qed.

(** Reranking returns the candidates, each with its advanced score
    written, in some order. *)
Lemma rerank_results_perm query results :
  _rerank_results query results ≡ₚ map (set_advanced_score query) results.
Proof. apply sorted_desc_perm. Qed.

End RerankFacts.

(** Where the similarity score two results share is not negative, the
    one typed [research_paper] never gets the lower advanced score. *)
Lemma research_paper_ahead_when_not_negative
    (query : string) (result : search_result) (t : option string) :
  (0 <= r_similarity_score result)%Q ->
  (Retriever.reranked_score query (Retriever.with_type t result)
   <= Retriever.reranked_score query
        (Retriever.with_type (Some "research_paper") result))%Q.
Proof.
  intros Hsim. unfold Retriever.reranked_score. cbn.
  apply RerankFacts.later_boosts_monotone.
  rewrite !(Qmult_comm (r_similarity_score result)).
  apply Qmult_le_compat_r; [|exact Hsim].
  apply RerankFacts.type_boost_at_most.
Qed.

(** C8 fails on the code.  A hit at distance 3/2 has the similarity
    score -1/2, and the boost meant to favour a research paper
    multiplies that negative score by 1.2: the research paper scores
    below the same result typed as a news article, and reranking puts
    it last. *)
Theorem research_paper_lower_when_negative :
  let paper := Retriever.with_type (Some "research_paper") Scenarios.far_result in
  let news := Retriever.with_type (Some "news_article") Scenarios.far_result in
  (Retriever.reranked_score "vector search" paper
   < Retriever.reranked_score "vector search" news)%Q /\
  Retriever._rerank_results "vector search" [paper; news]
  = [Retriever.set_advanced_score "vector search" news;
     Retriever.set_advanced_score "vector search" paper].
Proof. split; vm_compute; reflexivity. Qed.

(** C9 fails on the code.  The year the reranker looks for is the
    literal "2024"; no clock is read.  Of two results that differ in
    nothing but the date, the one stamped 2026-11-03 scores 1/2, which
    is what it scores with no date at all, while the one stamped
    2024-01-01 scores 11/20 and is ranked first: in any year but 2024
    the boost goes to the older result.  For every result, all that the
    score takes from the date is whether it is a non-empty string that
    contains "2024". *)
Theorem recency_boost_fixed_to_2024 :
  let query := "vector search" in
  let fresh := Scenarios.dated_result "2026-11-03" in
  let stale := Scenarios.dated_result "2024-01-01" in
  Retriever.reference_year = "2024" /\
  (forall (q date_str : string) (result : search_result),
      Retriever.reranked_score q (Retriever.with_date (Some date_str) result)
      = Retriever.reranked_score q
          (Retriever.with_date
             (if negb (PyStr.is_empty date_str)
                 && PyStr.contains "2024" date_str
              then Some "2024" else None)
             result)) /\
  (Retriever.reranked_score query fresh == 1 # 2)%Q /\
  Retriever.reranked_score query fresh
  = Retriever.reranked_score query (Retriever.with_date None fresh) /\
  (Retriever.reranked_score query stale == 11 # 20)%Q /\
  Retriever._rerank_results query [fresh; stale]
  = [Retriever.set_advanced_score query stale;
     Retriever.set_advanced_score query fresh].
Proof.
  cbv zeta. split; [reflexivity|]. split.
  { intros q date_str result.
    unfold Retriever.reranked_score, Retriever.advanced_key,
      Retriever.set_advanced_score, Retriever.calculate_advanced_score.
    cbn -[Retriever.type_boost PyStr.contains Retriever.title_matches PyStr.len
          PyStr.lower Qmult PyStr.is_empty].
    change Retriever.reference_year with "2024"%string.
    destruct (negb (PyStr.is_empty date_str) && PyStr.contains "2024" date_str);
      reflexivity. }
  repeat split; vm_compute; reflexivity.
Qed.

(** ** Search patterns and popular topics *)

Module TrackFacts.
Import PyStr MemoryManager.

Lemma count_term_lookup (patterns : gmap string Z) term t :
  count_term patterns term !! t
  = if (3 <? len term) && bool_decide (term = t)
    then Some (default 0 (patterns !! t) + 1)
    else patterns !! t.
Proof.
  unfold count_term. destruct (3 <? len term); cbn [andb]; [|reflexivity].
  rewrite lookup_insert. case_decide as Heq.
  - subst. now rewrite bool_decide_eq_true_2.
  - now rewrite bool_decide_eq_false_2.
Qed.

Lemma count_terms_changed terms : forall (patterns : gmap string Z) t,
  foldl count_term patterns terms !! t <> patterns !! t -> 3 < len t.
Proof.
  induction terms as [|term terms IH]; intros patterns t; cbn [foldl];
    [congruence|].
  intros Hchanged.
  destruct (decide (foldl count_term (count_term patterns term) terms !! t
                    = count_term patterns term !! t)) as [Hsame|Hdiff].
  - rewrite Hsame, count_term_lookup in Hchanged.
    destruct (3 <? len term) eqn:Hlong; cbn [andb] in Hchanged; [|congruence].
    case_bool_decide; [subst; now apply Z.ltb_lt|congruence].
  - exact (IH _ _ Hdiff).
Qed.

Lemma count_terms_grow terms : forall (patterns : gmap string Z) t,
  default 0 (patterns !! t) <= default 0 (foldl count_term patterns terms !! t).
Proof.
  induction terms as [|term terms IH]; intros patterns t; cbn [foldl]; [lia|].
  etransitivity; [|apply IH].
  rewrite count_term_lookup.
  destruct ((3 <? len term) && bool_decide (term = t)); cbn; lia.
Qed.

End TrackFacts.

(** C7: a call of [track_search_pattern] keeps every popular topic, and
    so does any sequence of calls; a term the call admits has a
    frequency of at least 5 afterwards; a term whose frequency the call
    changes has more than 3 characters, and no frequency goes down. *)
Theorem track_search_pattern_monotone
    (mm : MemoryManager.memory) (query : string) (results_found : Z) :
  let mm' := MemoryManager.track_search_pattern mm query results_found in
  MemoryManager.popular_topics mm ⊆ MemoryManager.popular_topics mm' /\
  (forall calls : list (string * Z),
      MemoryManager.popular_topics mm
      ⊆ MemoryManager.popular_topics
          (foldl (fun m call => MemoryManager.track_search_pattern m call.1 call.2)
             mm calls)) /\
  (forall t, t ∈ MemoryManager.popular_topics mm' ->
             t ∉ MemoryManager.popular_topics mm ->
             exists count, MemoryManager.search_patterns mm' !! t = Some count
                           /\ 5 <= count) /\
  (forall t, MemoryManager.search_patterns mm' !! t
             <> MemoryManager.search_patterns mm !! t ->
             3 < PyStr.len t) /\
  (forall t, default 0 (MemoryManager.search_patterns mm !! t)
             <= default 0 (MemoryManager.search_patterns mm' !! t)).
Proof.
  cbn zeta. split; [cbn; set_solver|]. split.
  { intros calls. revert mm. induction calls as [|call calls IH]; intros mm;
      cbn [foldl]; [reflexivity|].
    etransitivity; [|apply IH]. cbn. set_solver. }
  split.
  { cbn. intros t [Hold|Hnew]%elem_of_union Hfresh; [contradiction|].
    apply elem_of_dom in Hnew as [count Hcount].
    apply map_lookup_filter_Some in Hcount as [Hcount Hreached].
    exists count. split; [exact Hcount|exact Hreached]. }
  split.
  - intros t. apply TrackFacts.count_terms_changed.
  - intros t. apply TrackFacts.count_terms_grow.
Qed.

Lemma track_search_pattern_monotone_witness :
  exists count,
    MemoryManager.search_patterns
      (MemoryManager.track_search_pattern Scenarios.almost_popular
         "vector databases" 3) !! "vector" = Some count
    /\ 5 <= count.
Proof.
  destruct (track_search_pattern_monotone Scenarios.almost_popular
              "vector databases" 3) as (_ & _ & Hadmit & _).
  apply Hadmit; apply (bool_decide_unpack _); vm_compute; exact I.
Defined.

(** ** The store: ingestion, deletion, update *)

Section StoreFacts.
Context `{EmbeddingGateway} `{VectorIndex} `{Runtime}.
Import PyStr VectorStore.

(** The list [add_document] returns names every chunk of the document,
    whether or not the chunk reached the collection. *)
Lemma add_chunks_ids d doc_id chunks : forall i st chunk_ids,
  (add_chunks d doc_id i chunks st chunk_ids).1
  = chunk_ids ++ map (chunk_id_of doc_id) (seq i (length chunks)).
Proof.
  induction chunks as [|chunk rest IH]; intros i st chunk_ids;
    cbn [add_chunks length seq map].
  - now rewrite app_nil_r.
  - destruct (_generate_embedding chunk); rewrite IH, <- app_assoc; reflexivity.
Qed.

Lemma collection_add_log st chunk_id r :
  exists landed,
    index_log (collection_add st chunk_id r)
    = index_log st ++ [CallAdd chunk_id landed].
Proof.
  unfold collection_add.
  destruct (_ || _); eexists; reflexivity.
Qed.

Lemma add_chunks_log d doc_id chunks : forall i st chunk_ids,
  exists adds,
    index_log (add_chunks d doc_id i chunks st chunk_ids).2
    = index_log st ++ adds /\ Forall is_add adds.
Proof.
  induction chunks as [|chunk rest IH]; intros i st chunk_ids;
    cbn [add_chunks].
  - exists []. now rewrite app_nil_r.
  - destruct (_generate_embedding chunk) as [|x v]; [apply IH|].
    edestruct IH as (adds & -> & Hadds).
    edestruct collection_add_log as [landed ->].
    exists (CallAdd (chunk_id_of doc_id i) landed :: adds).
    rewrite <- app_assoc. split; [reflexivity|].
    constructor; [exact I|exact Hadds].
Qed.

Lemma add_document_log d st :
  exists adds,
    index_log (add_document d st).2 = index_log st ++ adds
    /\ Forall is_add adds.
Proof.
  unfold add_document.
  destruct (is_empty (default EmptyString (d_content d))).
  - exists []. cbn. now rewrite app_nil_r.
  - edestruct add_chunks_log as (adds & -> & Hadds).
    exists adds. split; [reflexivity|exact Hadds].
Qed.

(** An engine that raises on the [include] list of [delete_document]
    makes every deletion a no-op that answers [False]. *)
Lemma delete_document_refused doc_id st :
  index_get_rejects ["ids"] = true -> delete_document doc_id st = (false, st).
Proof. intros Hrefused. unfold delete_document. now rewrite Hrefused. Qed.

(** With an engine that answers the [get], no row of the document is
    left after [delete_document], and every other row is. *)
Lemma delete_document_collection doc_id st :
  index_get_rejects ["ids"] = false ->
  collection (delete_document doc_id st).2
  = filter (fun kv => m_document_id (row_metadata kv.2) <> Some doc_id)
      (collection st).
Proof.
  intros Hanswered. unfold delete_document, chunk_ids_of. rewrite Hanswered.
  case_bool_decide as Hnone; cbn [snd collection].
  - apply dom_empty_inv_L in Hnone.
    symmetry. apply map_filter_id. intros i r Hi Hdoc.
    assert (Hin : filter (fun kv : string * row =>
                            m_document_id (row_metadata kv.2) = Some doc_id)
                    (collection st) !! i = Some r)
      by (apply map_lookup_filter_Some; split; assumption).
    rewrite Hnone, lookup_empty in Hin. discriminate.
  - apply map_filter_ext. intros i r Hi. cbn [fst snd].
    rewrite elem_of_dom. split.
    + intros Hout Hdoc. apply Hout. exists r.
      apply map_lookup_filter_Some. split; assumption.
    + intros Hdoc [r' Hr']. apply map_lookup_filter_Some in Hr' as [Hr' Hdoc'].
      rewrite Hi in Hr'. injection Hr' as <-. contradiction.
Qed.

(** Whatever the engine, [delete_document] leaves the rows of the other
    documents as they are. *)
Lemma delete_document_keeps_others doc_id st k r :
  collection st !! k = Some r ->
  m_document_id (row_metadata r) <> Some doc_id ->
  collection (delete_document doc_id st).2 !! k = Some r.
Proof.
  intros Hk Hother.
  destruct (index_get_rejects ["ids"]) eqn:Hengine.
  - now rewrite delete_document_refused.
  - rewrite delete_document_collection by exact Hengine.
    apply map_lookup_filter_Some. split; assumption.
Qed.

Lemma append_cancel_l s : forall a b, s +:+ a = s +:+ b -> a = b.
Proof.
  induction s as [|c s IH]; intros a b Heq; [exact Heq|].
  change (String c (s +:+ a) = String c (s +:+ b)) in Heq.
  injection Heq as Heq. now apply IH.
Qed.

End StoreFacts.

(** C3 fails on the code.  A document of two chunks is ingested while the
    provider fails on the first chunk only: the first chunk is skipped
    and the second one lands, yet the returned list names both. *)
Theorem add_document_reports_skipped_chunk :
  let outcome :=
    @VectorStore.add_document Scenarios.gateway_no_alpha Scenarios.plain_index
      Scenarios.plain_runtime Scenarios.two_chunk_document Scenarios.empty_store in
  outcome.1 = ["doc1_chunk_0"; "doc1_chunk_1"] /\
  elements (dom (collection outcome.2)) = ["doc1_chunk_1"] /\
  index_log outcome.2 = [CallAdd "doc1_chunk_1" true].
Proof. vm_compute. repeat split. Qed.

(** ** Updating a tracked document *)

Section RefusedGet.
Context `{EmbeddingGateway} `{VectorIndex} `{Runtime}.
Import PyStr VectorStore MemoryManager.

(** With an engine whose [get] raises on ['ids'], an update issues add
    calls only, and a cleanup changes nothing. *)
Hypothesis ids_refused : index_get_rejects ["ids"] = true.

Lemma update_document_log d st :
  exists adds,
    index_log (update_document d st).2 = index_log st ++ adds
    /\ Forall is_add adds.
Proof.
  assert (Hnone : exists adds, index_log st = index_log st ++ adds
                               /\ Forall is_add adds)
    by (exists []; now rewrite app_nil_r).
  unfold update_document.
  destruct (d_id d) as [doc_id|]; [|exact Hnone].
  destruct (is_empty doc_id); [exact Hnone|].
  rewrite delete_document_refused by exact ids_refused.
  apply add_document_log.
Qed.

Lemma update_document_if_changed_log mm st d :
  exists adds,
    index_log (update_document_if_changed mm st d).2 = index_log st ++ adds
    /\ Forall is_add adds.
Proof.
  assert (Hnone : exists adds, index_log st = index_log st ++ adds
                               /\ Forall is_add adds)
    by (exists []; now rewrite app_nil_r).
  unfold update_document_if_changed.
  destruct (is_empty _); [exact Hnone|].
  case_bool_decide; [|exact Hnone].
  destruct (update_document_log d st) as (adds & Hlog & Hadds).
  destruct (update_document d st) as [[|chunk_id chunk_ids] st'];
    cbn [snd] in *; exists adds; split; assumption.
Qed.

Lemma remove_outdated_refused doc_ids : forall acc,
  foldl remove_outdated acc doc_ids = acc.
Proof.
  induction doc_ids as [|doc_id doc_ids IH]; intros [mm st]; [reflexivity|].
  cbn [foldl]. unfold remove_outdated at 2. cbn [fst snd].
  rewrite delete_document_refused by exact ids_refused. apply IH.
Qed.

Lemma cleanup_outdated_content_refused mm st now max_age_days :
  cleanup_outdated_content mm st now max_age_days = (mm, st).
Proof.
  unfold cleanup_outdated_content.
  destruct (index_get_rejects ["metadatas"]); [reflexivity|].
  destruct (map _ (map_to_list (collection st))); [reflexivity|].
  destruct (cutoff now max_age_days); [|reflexivity].
  apply remove_outdated_refused.
Qed.

End RefusedGet.

(** C2 fails on the code.  The note is tracked and stored as one chunk;
    the engine raises on a [get] that asks to include ['ids'].  An
    update with the same note returns [False] and touches nothing, as
    the claim says.  An update with the last character of the content
    changed returns [True] and records the new checksum, but the index
    saw no delete: the [get] inside [delete_document] raised, the only
    call issued is the add of [note1_chunk_0], refused because that id
    is still there, and the chunk keeps the old text.  A further update
    with the new text then finds the checksum equal and does nothing.
    With this engine no update of any document ever issues a delete. *)
Theorem update_document_if_changed_keeps_old_chunk :
  let update :=
    @MemoryManager.update_document_if_changed Scenarios.gateway_up
      Scenarios.plain_index Scenarios.plain_runtime in
  let checksum :=
    @MemoryManager._calculate_document_checksum Scenarios.plain_runtime in
  let mm := Scenarios.tracked_note.1 in
  let st := Scenarios.tracked_note.2 in
  let same := update mm st Scenarios.note_document in
  let changed := update mm st Scenarios.revised_note in
  (row_document <$> collection st !! "note1_chunk_0")
  = Some "Chunks are embedded one by one." /\
  MemoryManager.document_checksums mm !! "note1"
  = Some (checksum Scenarios.note_document) /\
  same = (false, mm, st) /\
  changed.1.1 = true /\
  MemoryManager.document_checksums changed.1.2 !! "note1"
  = Some (checksum Scenarios.revised_note) /\
  collection changed.2 = collection st /\
  index_log changed.2 = index_log st ++ [CallAdd "note1_chunk_0" false] /\
  update changed.1.2 changed.2 Scenarios.revised_note
  = (false, changed.1.2, changed.2) /\
  (forall (mm' : MemoryManager.memory) (st' : store) (d : document),
      exists adds,
        index_log (update mm' st' d).2 = index_log st' ++ adds
        /\ Forall VectorStore.is_add adds).
Proof.
  cbv zeta. repeat split; try (vm_compute; reflexivity).
  intros mm' st' d.
  now apply (@update_document_if_changed_log Scenarios.gateway_up
               Scenarios.plain_index Scenarios.plain_runtime).
Qed.

(** ** Cleanup of outdated content *)

(** C4 fails on the code.  Five documents dated 10, 45, 91, 120 and 200
    days before the day of the call are stored, one chunk each, and the
    cleanup runs at noon with 90 days.  The cutoff exists, the three
    documents at least 91 days old are the ones the cleanup picks, and
    yet all five are still there afterwards, storage and checksums
    unchanged: each [delete_document] answered [False], its [get]
    having raised on the ['ids'] it asks to include.  With this engine
    the cleanup removes nothing from any store, at any time, for any
    age limit and any reading of the dates. *)
Theorem cleanup_outdated_content_removes_nothing :
  let cleanup :=
    @MemoryManager.cleanup_outdated_content Scenarios.plain_index
      Scenarios.plain_runtime in
  let mm := Scenarios.aged.1 in
  let st := Scenarios.aged.2 in
  let metadatas :=
    map (fun kv : string * row => row_metadata kv.2)
      (map_to_list (collection st)) in
  map (fun d => @strptime_ymd Scenarios.plain_runtime
                  (default EmptyString (d_date d)))
    Scenarios.aged_documents
  = map (fun age => Some (Scenarios.today - age * MemoryManager.day_us))
      [10; 45; 91; 120; 200] /\
  dom (collection st)
  = {[ "d10_chunk_0"; "d45_chunk_0"; "d91_chunk_0"; "d120_chunk_0";
       "d200_chunk_0" ]} /\
  (exists cutoff_date,
      MemoryManager.cutoff Scenarios.noon 90 = Some cutoff_date /\
      @MemoryManager.collect_outdated Scenarios.plain_runtime cutoff_date
        metadatas
      = {[ "d91"; "d120"; "d200" ]}) /\
  cleanup mm st Scenarios.noon 90 = (mm, st) /\
  (forall (rt : Runtime) (mm' : MemoryManager.memory) (st' : store)
          (now max_age_days : Z),
      @MemoryManager.cleanup_outdated_content Scenarios.plain_index rt
        mm' st' now max_age_days
      = (mm', st')).
Proof.
  cbv zeta. split; [vm_compute; reflexivity|].
  split; [vm_compute; reflexivity|]. split.
  { eexists. split; vm_compute; reflexivity. }
  split; [vm_compute; reflexivity|].
  intros rt mm' st' now max_age_days.
  now apply (@cleanup_outdated_content_refused Scenarios.plain_index rt).
Qed.

(** ** Retrieval when the query cannot be embedded *)

Section RetrieveFacts.
Context `{EmbeddingGateway} `{VectorIndex} `{ContentAggregator} `{Runtime}.
Import PyStr VectorStore Retriever.

Lemma convert_loop_without_query_embedding external_content query :
  _generate_embedding query = [] ->
  forall results, convert_loop external_content query results = results.
Proof.
  intros Hquery.
  induction external_content as [|content rest IH]; intros results;
    cbn [convert_loop]; [reflexivity|].
  rewrite Hquery. apply IH.
Qed.

Lemma list_slice_to_nil {A} k : list_slice_to (@nil A) k = [].
Proof. unfold list_slice_to. now rewrite take_nil. Qed.

(** The context returned when nothing was found, whatever the reason. *)
Lemma retrieve_nothing_found st query k include_external rerank :
  similarity_search st query
    (Some (py_or k Config.TOP_K_RESULTS * 2)) = [] ->
  (forall external_content,
      _convert_external_to_results external_content query = []) ->
  (retrieve_relevant_context st query k include_external rerank).1
  = {| rc_query := query;
       rc_results := [];
       rc_context_summary := "No relevant context found for the query.";
       rc_total_results_found := 0;
       rc_external_sources_used := 0;
       rc_retrieval_metadata :=
         {| reranked := rerank;
            external_content_included := include_external;
            final_result_count := 0 |} |}.
Proof.
  intros Hsearch Hconvert. unfold retrieve_relevant_context.
  rewrite Hsearch. cbn [length app].
  destruct (include_external && (Z.of_nat 0 <? py_or k Config.TOP_K_RESULTS)).
  - destruct (_fetch_external_content st query) as [external_content st'].
    rewrite Hconvert. cbn [_deduplicate_results length].
    destruct (rerank && _); cbn [_rerank_results map sorted_desc foldr];
      rewrite list_slice_to_nil; reflexivity.
  - cbn [_deduplicate_results length].
    destruct (rerank && _); cbn [_rerank_results map sorted_desc foldr];
      rewrite list_slice_to_nil; reflexivity.
Qed.

(** C1, as the code has it: when the provider fails on the query text
    ([_generate_embedding] comes back empty),
    [retrieve_relevant_context] returns (it is a total function: no
    exception reaches the caller) a context with no results, a total
    of 0 results found and 0 external sources, and the fixed summary
    of an empty result list.  Nothing in the context marks the
    failure: it is the context of any retrieval whose search and
    external conversion come back empty. *)
Theorem retrieve_when_query_embedding_fails
    (st : store) (query : string) (k : option Z)
    (include_external rerank : bool) :
  _generate_embedding query = [] ->
  let context := (retrieve_relevant_context st query k include_external rerank).1 in
  rc_results context = [] /\
  rc_total_results_found context = 0 /\
  rc_external_sources_used context = 0 /\
  rc_context_summary context = "No relevant context found for the query." /\
  context
  = {| rc_query := query;
       rc_results := [];
       rc_context_summary := "No relevant context found for the query.";
       rc_total_results_found := 0;
       rc_external_sources_used := 0;
       rc_retrieval_metadata :=
         {| reranked := rerank;
            external_content_included := include_external;
            final_result_count := 0 |} |}.
Proof.
  intros Hembedding context.
  assert (Hcontext : context = {|
       rc_query := query;
       rc_results := [];
       rc_context_summary := "No relevant context found for the query.";
       rc_total_results_found := 0;
       rc_external_sources_used := 0;
       rc_retrieval_metadata :=
         {| reranked := rerank;
            external_content_included := include_external;
            final_result_count := 0 |} |}).
  { apply retrieve_nothing_found.
    - unfold similarity_search. now rewrite Hembedding.
    - intros external_content. unfold _convert_external_to_results.
      now rewrite convert_loop_without_query_embedding. }
  rewrite Hcontext. repeat split.
Qed.

End RetrieveFacts.

Lemma retrieve_when_query_embedding_fails_witness :
  rc_results
    (@Retriever.retrieve_relevant_context Scenarios.gateway_down
       Scenarios.plain_index Scenarios.quiet_aggregator Scenarios.plain_runtime
       Scenarios.aged.2 "quarterly figures" None true true).1 = [].
Proof.
  apply (@retrieve_when_query_embedding_fails Scenarios.gateway_down
           Scenarios.plain_index Scenarios.quiet_aggregator
           Scenarios.plain_runtime Scenarios.aged.2 "quarterly figures"
           None true true).
  reflexivity.
Defined.

(** C1 as stated fails: the context returned when the provider is down
    is, field for field, the context returned when the provider answers
    and the collection is empty, so no test on the returned context
    tells the failure from a search that found nothing. *)
Lemma retrieve_failure_carries_no_indicator :
  let failed :=
    (@Retriever.retrieve_relevant_context Scenarios.gateway_down
       Scenarios.plain_index Scenarios.quiet_aggregator Scenarios.plain_runtime
       Scenarios.empty_store "quarterly figures" None true true).1 in
  let found_nothing :=
    (@Retriever.retrieve_relevant_context Scenarios.gateway_up
       Scenarios.plain_index Scenarios.quiet_aggregator Scenarios.plain_runtime
       Scenarios.empty_store "quarterly figures" None true true).1 in
  @embeddings_create Scenarios.gateway_down "quarterly figures" = None /\
  @embeddings_create Scenarios.gateway_up "quarterly figures" <> None /\
  failed = found_nothing /\
  forall indicator : retrieval_context -> bool,
    indicator failed = indicator found_nothing.
Proof.
  assert (Hsame :
    (@Retriever.retrieve_relevant_context Scenarios.gateway_down
       Scenarios.plain_index Scenarios.quiet_aggregator Scenarios.plain_runtime
       Scenarios.empty_store "quarterly figures" None true true).1
    = (@Retriever.retrieve_relevant_context Scenarios.gateway_up
         Scenarios.plain_index Scenarios.quiet_aggregator Scenarios.plain_runtime
         Scenarios.empty_store "quarterly figures" None true true).1)
    by (vm_compute; reflexivity).
  cbn zeta. split; [reflexivity|]. split; [discriminate|].
  split; [exact Hsame|]. intros indicator. now rewrite Hsame.
Qed.

(** * Further properties *)

(** ** The chunker: sizes and blank texts *)

Module ChunkBounds.
Import PyStr Chunker TextFacts.

Lemma substring_length n : forall m s,
  (String.length (String.substring n m s) <= m)%nat.
Proof.
  induction n as [|n IH]; intros m s.
  - revert m. induction s as [|c s IHs]; intros [|m]; cbn; try lia.
    specialize (IHs m). lia.
  - destruct s as [|c s]; cbn; [lia|apply IH].
Qed.

Lemma lstrip_length s : (String.length (lstrip s) <= String.length s)%nat.
Proof.
  induction s as [|c s IH]; cbn [lstrip]; [lia|].
  destruct (isspace c); cbn; lia.
Qed.

Lemma rstrip_length s : (String.length (rstrip s) <= String.length s)%nat.
Proof.
  induction s as [|c s IH]; cbn [rstrip]; [lia|].
  destruct (rstrip s); [destruct (isspace c)|]; cbn in *; lia.
Qed.

Lemma strip_length s : len (strip s) <= len s.
Proof.
  unfold strip, len.
  pose proof (rstrip_length (lstrip s)). pose proof (lstrip_length s). lia.
Qed.

Lemma slice_length s a b :
  0 <= a -> 0 <= b -> len (slice s a b) <= Z.max 0 (b - a).
Proof.
  intros Ha Hb. unfold slice, len, clamp.
  pose proof (substring_length
                (Z.to_nat (if a <? 0 then Z.max 0 (Z.of_nat (String.length s) + a)
                           else Z.min a (Z.of_nat (String.length s))))
                (Z.to_nat ((if b <? 0 then Z.max 0 (Z.of_nat (String.length s) + b)
                            else Z.min b (Z.of_nat (String.length s)))
                           - (if a <? 0 then Z.max 0 (Z.of_nat (String.length s) + a)
                              else Z.min a (Z.of_nat (String.length s)))))
                s) as Hsub.
  destruct (a <? 0) eqn:Ha'; [apply Z.ltb_lt in Ha'; lia|].
  destruct (b <? 0) eqn:Hb'; [apply Z.ltb_lt in Hb'; lia|].
  lia.
Qed.

(** [rfind_aux] returns the fallback or a position inside the bounds. *)
Lemma rfind_aux_bounds sub s : forall pos a b best,
  let r := rfind_aux sub s pos a b best in
  r = best \/ (a <= r /\ r + len sub <= b).
Proof.
  induction s as [|c s IH]; intros pos a b best; cbn [rfind_aux].
  - destruct (_ && _ && _) eqn:Hhit; [|now left].
    apply andb_prop in Hhit as [Hhit _]. apply andb_prop in Hhit as [Ha Hb].
    right. lia.
  - cbv zeta.
    destruct (IH (pos + 1) a b
                (if (a <=? pos) && (pos + len sub <=? b) && String.prefix sub (String c s)
                 then pos else best)) as [Hbest|Hin]; [|now right].
    rewrite Hbest.
    destruct (_ && _ && _) eqn:Hhit; [|now left].
    apply andb_prop in Hhit as [Hhit _]. apply andb_prop in Hhit as [Ha Hb].
    right. lia.
Qed.

Lemma rfind_bounds s sub start stop :
  0 <= stop ->
  let r := rfind s sub start stop in
  r = -1 \/ r + len sub <= stop.
Proof.
  intros Hstop. cbv zeta. unfold rfind.
  destruct (rfind_aux_bounds sub s 0 (clamp (len s) start) (clamp (len s) stop) (-1))
    as [Hnone|[_ Hin]]; [now left|right].
  assert (Hclamp : clamp (len s) stop <= stop).
  { unfold clamp. destruct (stop <? 0) eqn:Hneg; [apply Z.ltb_lt in Hneg|]; lia. }
  cbv zeta in Hin. lia.
Qed.

(** A window never reaches past [start + chunk_size]. *)
Lemma window_end_bounds text chunk_size start :
  0 <= start -> 0 < chunk_size ->
  0 <= window_end text chunk_size start <= start + chunk_size.
Proof.
  intros Hstart Hsize. unfold window_end.
  assert (Hhalf : 0 <= chunk_size / 2) by (apply Z.div_pos; lia).
  destruct (start + chunk_size <? len text); [|lia].
  destruct (negb _ && (_ <? rfind text ". " _ _)) eqn:Hsentence.
  - apply andb_prop in Hsentence as [Hfound Hlate].
    apply Z.ltb_lt in Hlate. apply negb_true_iff, Z.eqb_neq in Hfound.
    destruct (rfind_bounds text ". " start (start + chunk_size)) as [Hnone|Hin];
      [lia|contradiction|].
    change (len ". ") with 2 in Hin. lia.
  - destruct (negb _ && (_ <? rfind text " " _ _)) eqn:Hword; [|lia].
    apply andb_prop in Hword as [Hfound Hlate].
    apply Z.ltb_lt in Hlate. apply negb_true_iff, Z.eqb_neq in Hfound.
    destruct (rfind_bounds text " " start (start + chunk_size)) as [Hnone|Hin];
      [lia|contradiction|].
    change (len " ") with 1 in Hin. lia.
Qed.

Lemma emit_sizes text chunk_size start chunks :
  0 <= start -> 0 < chunk_size ->
  Forall (fun chunk => len chunk <= chunk_size) chunks ->
  Forall (fun chunk => len chunk <= chunk_size) (emit text chunk_size start chunks)
  /\ (length (emit text chunk_size start chunks) <= S (length chunks))%nat.
Proof.
  intros Hstart Hsize Hall. unfold emit.
  destruct (is_empty _); [split; [exact Hall|lia]|].
  split; [|rewrite length_app; cbn; lia].
  apply Forall_app. split; [exact Hall|]. constructor; [|constructor].
  pose proof (window_end_bounds text chunk_size start Hstart Hsize) as Hend.
  pose proof (strip_length (slice text start (window_end text chunk_size start))).
  pose proof (slice_length text start (window_end text chunk_size start)
                Hstart (proj1 Hend)).
  lia.
Qed.

Lemma chunk_loop_sizes fuel : forall text chunk_size overlap start chunks result,
  0 <= start -> 0 < chunk_size ->
  Forall (fun chunk => len chunk <= chunk_size) chunks ->
  chunk_loop fuel text chunk_size overlap start chunks = Some result ->
  Forall (fun chunk => len chunk <= chunk_size) result
  /\ (length result <= length chunks + Z.to_nat (len text - start))%nat.
Proof.
  induction fuel as [|fuel IH];
    intros text chunk_size overlap start chunks result Hstart Hsize Hall;
    cbn [chunk_loop]; destruct (start <? len text) eqn:Hin;
    try (intros [= <-]; split; [exact Hall|lia]); [discriminate|].
  apply Z.ltb_lt in Hin.
  destruct (emit_sizes text chunk_size start chunks Hstart Hsize Hall)
    as [Hall' Hcount].
  pose proof (ChunkerFacts.next_start_progress text chunk_size overlap start).
  destruct (len text <=? next_start text chunk_size overlap start) eqn:Hout.
  - intros [= <-]. split; [exact Hall'|lia].
  - apply Z.leb_gt in Hout. intros Hresult.
    apply IH in Hresult as [Hsizes Hlen]; [|lia|exact Hsize|exact Hall'].
    split; [exact Hsizes|lia].
Qed.

Lemma all_blank_substring n : forall m s,
  all_blank s = true -> all_blank (String.substring n m s) = true.
Proof.
  induction n as [|n IH]; intros m s.
  - revert m. induction s as [|c s IHs]; intros [|m] Hs; cbn in *; try reflexivity.
    apply andb_prop in Hs as [Hc Hs]. rewrite Hc. now apply IHs.
  - destruct s as [|c s]; cbn; [reflexivity|].
    intros [_ Hs]%andb_prop. now apply IH.
Qed.

Lemma lstrip_blank s : all_blank s = true -> lstrip s = EmptyString.
Proof.
  induction s as [|c s IH]; cbn; [reflexivity|].
  intros [Hc Hs]%andb_prop. rewrite Hc. now apply IH.
Qed.

Lemma emit_blank text chunk_size start chunks :
  all_blank text = true -> emit text chunk_size start chunks = chunks.
Proof.
  intros Hblank. unfold emit, strip, slice.
  rewrite lstrip_blank by now apply all_blank_substring. reflexivity.
Qed.

Lemma chunk_loop_blank fuel : forall text chunk_size overlap start chunks result,
  all_blank text = true ->
  chunk_loop fuel text chunk_size overlap start chunks = Some result ->
  result = chunks.
Proof.
  induction fuel as [|fuel IH];
    intros text chunk_size overlap start chunks result Hblank;
    cbn [chunk_loop]; destruct (start <? len text); try congruence.
  rewrite emit_blank by exact Hblank.
  destruct (len text <=? _); [congruence|]. now apply IH.
Qed.

End ChunkBounds.

(** X1: with a positive chunk size, no chunk returned by [_chunk_text]
    is longer than the chunk size, and there are at most as many chunks
    as the text has characters (one for a text that fits). *)
Theorem chunk_text_sizes (text : string) (chunk_size overlap : option Z) :
  0 < py_or chunk_size Config.CHUNK_SIZE ->
  Forall (fun chunk => PyStr.len chunk <= py_or chunk_size Config.CHUNK_SIZE)
    (Chunker._chunk_text text chunk_size overlap)
  /\ (length (Chunker._chunk_text text chunk_size overlap)
      <= Nat.max 1 (String.length text))%nat.
Proof.
  intros Hsize. unfold Chunker._chunk_text, Chunker.chunk_text_fuel.
  destruct (PyStr.len text <=? py_or chunk_size Config.CHUNK_SIZE) eqn:Hfits.
  - apply Z.leb_le in Hfits. cbn. split; [|lia].
    constructor; [exact Hfits|constructor].
  - destruct (Chunker.chunk_loop _ _ _ _ _ _) as [result|] eqn:Hresult;
      [|cbn; split; [constructor|lia]].
    apply ChunkBounds.chunk_loop_sizes in Hresult as [Hsizes Hcount];
      [|lia|exact Hsize|constructor].
    cbn [default from_option id]. split; [exact Hsizes|].
    cbn [length] in Hcount. unfold PyStr.len in Hcount. lia.
Qed.

Lemma chunk_text_sizes_witness :
  Forall (fun chunk => PyStr.len chunk <= 10)
    (Chunker._chunk_text "aaaa bbbb. cccc dddd eeee ffff" (Some 10) (Some 3)).
Proof.
  apply (chunk_text_sizes "aaaa bbbb. cccc dddd eeee ffff" (Some 10) (Some 3)).
  reflexivity.
Defined.

(** X2: a text of blanks only that is longer than the chunk size is
    chunked into nothing at all, while a blank text that fits comes back
    as one chunk of blanks. *)
Theorem chunk_text_blank (text : string) (chunk_size overlap : option Z) :
  TextFacts.all_blank text = true ->
  Chunker._chunk_text text chunk_size overlap
  = if PyStr.len text <=? py_or chunk_size Config.CHUNK_SIZE then [text] else [].
Proof.
  intros Hblank. unfold Chunker._chunk_text, Chunker.chunk_text_fuel.
  destruct (PyStr.len text <=? _); [reflexivity|].
  destruct (Chunker.chunk_loop _ _ _ _ _ _) as [result|] eqn:Hresult; [|reflexivity].
  apply ChunkBounds.chunk_loop_blank in Hresult; [|exact Hblank]. now subst.
Qed.

Lemma chunk_text_blank_witness :
  Chunker._chunk_text "     " (Some 3) None = [].
Proof.
  apply (chunk_text_blank "     " (Some 3) None). reflexivity.
Defined.

(** ** The store: what ingestion, deletion and update leave behind *)

Section StoreContents.
Context `{EmbeddingGateway} `{VectorIndex} `{Runtime}.
Import PyStr Chunker VectorStore StoreQueries.

Lemma string_length_append s t :
  String.length (s +:+ t) = (String.length s + String.length t)%nat.
Proof.
  induction s as [|c s IH]; [reflexivity|].
  change (String c s +:+ t) with (String c (s +:+ t)). cbn. now rewrite IH.
Qed.

Lemma str_of_nat_inj n m : str_of_nat n = str_of_nat m -> n = m.
Proof.
  unfold str_of_nat. intros Heq.
  apply DecimalNat.Unsigned.to_uint_inj.
  assert (Hparse : NilEmpty.uint_of_string (NilEmpty.string_of_uint (Nat.to_uint n))
                   = NilEmpty.uint_of_string (NilEmpty.string_of_uint (Nat.to_uint m)))
    by now rewrite Heq.
  rewrite !NilEmpty.usu in Hparse. now injection Hparse.
Qed.

Lemma chunk_id_of_inj doc_id i j :
  chunk_id_of doc_id i = chunk_id_of doc_id j -> i = j.
Proof.
  unfold chunk_id_of. intros Heq.
  apply append_cancel_l in Heq. apply (append_cancel_l "_chunk_") in Heq.
  now apply str_of_nat_inj.
Qed.

Lemma chunk_id_of_longer doc_id i : chunk_id_of doc_id i <> doc_id.
Proof.
  intros Heq. apply (f_equal String.length) in Heq.
  unfold chunk_id_of in Heq. rewrite !string_length_append in Heq.
  cbn in Heq. lia.
Qed.

Lemma collection_add_rows st chunk_id r k r' :
  collection (collection_add st chunk_id r) !! k = Some r' <->
  collection st !! k = Some r' \/
  (k = chunk_id /\ r' = r /\ collection st !! chunk_id = None
   /\ index_rejects (collection st) chunk_id r = false).
Proof.
  unfold collection_add. case_bool_decide as Hpresent; cbn [orb collection].
  - split; [now left|]. intros [Hk|(-> & _ & Hnone & _)]; [exact Hk|].
    rewrite Hnone in Hpresent. now destruct Hpresent.
  - assert (Hnone : collection st !! chunk_id = None).
    { destruct (collection st !! chunk_id) eqn:Hrow; [|reflexivity].
      destruct Hpresent. eauto. }
    destruct (index_rejects (collection st) chunk_id r); cbn [collection].
    + split; [now left|]. intros [Hk|(_ & _ & _ & Hno)]; [exact Hk|discriminate].
    + rewrite lookup_insert. case_decide as Hkey.
      * subst k. split.
        -- intros [= <-]. right. auto.
        -- intros [Hk|(_ & -> & _)]; [congruence|reflexivity].
      * split; [now left|]. intros [Hk|(-> & _)]; [exact Hk|congruence].
Qed.

(** The row [add_document] stores for a chunk. *)
Lemma add_chunks_keeps d doc_id chunks : forall i st chunk_ids k r,
  collection st !! k = Some r ->
  collection (add_chunks d doc_id i chunks st chunk_ids).2 !! k = Some r.
Proof.
  induction chunks as [|chunk rest IH]; intros i st chunk_ids k r Hk;
    cbn [add_chunks]; [exact Hk|].
  destruct (_generate_embedding chunk); apply IH; [exact Hk|].
  apply collection_add_rows. now left.
Qed.

Lemma add_chunks_new d doc_id chunks : forall i st chunk_ids k r,
  collection (add_chunks d doc_id i chunks st chunk_ids).2 !! k = Some r ->
  collection st !! k = Some r \/
  exists j chunk,
    chunks !! j = Some chunk /\ k = chunk_id_of doc_id (i + j) /\
    r = {| row_embedding := _generate_embedding chunk; row_document := chunk;
           row_metadata := chunk_metadata d doc_id (i + j) chunk |} /\
    _generate_embedding chunk <> [].
Proof.
  induction chunks as [|chunk rest IH]; intros i st chunk_ids k r;
    cbn [add_chunks]; [now left|].
  assert (Hlater : forall st',
    (collection st' !! k = Some r \/
     exists j chunk',
       rest !! j = Some chunk' /\ k = chunk_id_of doc_id (S i + j) /\
       r = {| row_embedding := _generate_embedding chunk'; row_document := chunk';
              row_metadata := chunk_metadata d doc_id (S i + j) chunk' |} /\
       _generate_embedding chunk' <> []) ->
    (collection st' !! k = Some r -> collection st !! k = Some r \/
       exists j chunk',
         (chunk :: rest) !! j = Some chunk' /\ k = chunk_id_of doc_id (i + j) /\
         r = {| row_embedding := _generate_embedding chunk'; row_document := chunk';
                row_metadata := chunk_metadata d doc_id (i + j) chunk' |} /\
         _generate_embedding chunk' <> []) ->
    collection st !! k = Some r \/
    exists j chunk',
      (chunk :: rest) !! j = Some chunk' /\ k = chunk_id_of doc_id (i + j) /\
      r = {| row_embedding := _generate_embedding chunk'; row_document := chunk';
             row_metadata := chunk_metadata d doc_id (i + j) chunk' |} /\
      _generate_embedding chunk' <> []).
  { intros st' [Hst'|(j & chunk' & Hj & -> & -> & Hemb)] Hhere; [now apply Hhere|].
    right. exists (S j), chunk'. replace (i + S j)%nat with (S i + j)%nat by lia.
    auto. }
  destruct (_generate_embedding chunk) as [|x v] eqn:Hemb.
  - intros Hk. eapply Hlater; [eapply IH, Hk|]. now left.
  - intros Hk. eapply Hlater; [eapply IH, Hk|].
    intros [Hst|(-> & -> & _)]%collection_add_rows; [now left|].
    right. exists 0%nat, chunk. rewrite Nat.add_0_r, Hemb. repeat split. discriminate.
Qed.

Lemma add_document_keeps d st k r :
  collection st !! k = Some r -> collection (add_document d st).2 !! k = Some r.
Proof.
  intros Hk. unfold add_document.
  destruct (is_empty _); [exact Hk|]. now apply add_chunks_keeps.
Qed.

Lemma add_document_new d st k r :
  collection (add_document d st).2 !! k = Some r ->
  collection st !! k = None ->
  k ∈ (add_document d st).1 /\
  row_document r ∈ _chunk_text (default EmptyString (d_content d)) None None /\
  row_embedding r = _generate_embedding (row_document r) /\
  row_embedding r <> [] /\
  m_document_id (row_metadata r)
  = Some (default (uuid4 (uuid_calls st)) (d_id d)).
Proof.
  unfold add_document.
  destruct (is_empty (default EmptyString (d_content d))) eqn:Hcontent;
    cbn [fst snd collection tick_uuid]; [congruence|].
  intros Hk Hnone. rewrite add_chunks_ids. cbn [app].
  apply add_chunks_new in Hk as [Hk|(j & chunk & Hj & -> & -> & Hemb)];
    [cbn in Hk; congruence|].
  cbn [row_document row_embedding row_metadata chunk_metadata m_document_id].
  split; [|split; [|auto]].
  - apply list_elem_of_fmap. exists j. split; [reflexivity|].
    apply elem_of_seq. apply lookup_lt_Some in Hj. lia.
  - eapply list_elem_of_lookup_2, Hj.
Qed.

(** X3: [add_document] returns nothing for a document without content
    and then issues no call to the collection; otherwise the list it
    returns is [doc_id_chunk_0], [doc_id_chunk_1], ... with one id per
    chunk of the content, all different, the id being the document's own
    or a freshly drawn uuid. *)
Theorem add_document_returned_ids (d : document) (st : store) :
  let doc_id := default (uuid4 (uuid_calls st)) (d_id d) in
  let content := default EmptyString (d_content d) in
  let outcome := add_document d st in
  (content = EmptyString ->
   outcome.1 = [] /\ collection outcome.2 = collection st
   /\ index_log outcome.2 = index_log st) /\
  (content <> EmptyString ->
   outcome.1 = map (chunk_id_of doc_id)
                 (seq 0 (length (_chunk_text content None None)))) /\
  NoDup outcome.1.
Proof.
  cbn zeta. unfold add_document.
  destruct (default EmptyString (d_content d)) as [|c content] eqn:Hcontent;
    cbn [is_empty].
  - split; [intros _; repeat split|]. split; [congruence|constructor].
  - rewrite add_chunks_ids. cbn [app].
    split; [intros Hne; discriminate|]. split; [reflexivity|].
    apply NoDup_fmap_2; [|apply NoDup_seq].
    intros i j. apply chunk_id_of_inj.
Qed.

(** X4: [add_document] never removes or overwrites a row of the
    collection, and every row it adds sits under one of the chunk ids it
    returns, holds one chunk of the content with its non-empty
    embedding, and names the document in its metadata. *)
Theorem add_document_rows (d : document) (st : store) :
  let doc_id := default (uuid4 (uuid_calls st)) (d_id d) in
  let content := default EmptyString (d_content d) in
  let outcome := add_document d st in
  (forall k r, collection st !! k = Some r ->
               collection outcome.2 !! k = Some r) /\
  (forall k r, collection outcome.2 !! k = Some r ->
               collection st !! k = None ->
               k ∈ outcome.1 /\
               row_document r ∈ _chunk_text content None None /\
               row_embedding r = _generate_embedding (row_document r) /\
               row_embedding r <> [] /\
               m_document_id (row_metadata r) = Some doc_id).
Proof.
  cbn zeta. split.
  - intros k r. apply add_document_keeps.
  - intros k r. apply add_document_new.
Qed.

End StoreContents.

Lemma add_document_returned_ids_witness :
  (@VectorStore.add_document Scenarios.gateway_up Scenarios.plain_index Scenarios.plain_runtime
     Scenarios.note_document Scenarios.empty_store).1 = ["note1_chunk_0"].
Proof.
  destruct (@add_document_returned_ids Scenarios.gateway_up Scenarios.plain_index
              Scenarios.plain_runtime Scenarios.note_document Scenarios.empty_store)
    as (_ & Hids & _).
  rewrite Hids; [reflexivity|discriminate].
Defined.

Lemma add_document_rows_witness :
  exists r,
    collection
      (@VectorStore.add_document Scenarios.gateway_up Scenarios.plain_index
         Scenarios.plain_runtime Scenarios.note_document Scenarios.empty_store).2
    !! "note1_chunk_0" = Some r
    /\ m_document_id (row_metadata r) = Some "note1".
Proof.
  destruct (collection
              (@VectorStore.add_document Scenarios.gateway_up Scenarios.plain_index
                 Scenarios.plain_runtime Scenarios.note_document
                 Scenarios.empty_store).2 !! "note1_chunk_0") as [r|] eqn:Hrow;
    [|vm_compute in Hrow; discriminate].
  exists r. split; [reflexivity|].
  destruct (@add_document_rows Scenarios.gateway_up Scenarios.plain_index
              Scenarios.plain_runtime Scenarios.note_document Scenarios.empty_store)
    as [_ Hnew].
  apply (Hnew "note1_chunk_0" r Hrow). reflexivity.
Defined.


Section StoreLifecycle.
Context `{EmbeddingGateway} `{VectorIndex} `{Runtime}.
Import PyStr Chunker VectorStore StoreQueries.

Lemma delete_document_rows doc_id st k r :
  index_get_rejects ["ids"] = false ->
  collection (delete_document doc_id st).2 !! k = Some r <->
  collection st !! k = Some r /\ m_document_id (row_metadata r) <> Some doc_id.
Proof.
  intros Hanswered. rewrite delete_document_collection by exact Hanswered.
  apply map_lookup_filter_Some.
Qed.

Lemma delete_document_found doc_id st :
  index_get_rejects ["ids"] = false ->
  (delete_document doc_id st).1 = false <->
  forall k r, collection st !! k = Some r ->
              m_document_id (row_metadata r) <> Some doc_id.
Proof.
  intros Hanswered. unfold delete_document, chunk_ids_of. rewrite Hanswered.
  case_bool_decide as Hnone; cbn [fst].
  - split; [intros _|reflexivity]. intros k r Hk Hdoc.
    apply dom_empty_inv_L in Hnone.
    assert (Hin : filter (fun kv : string * row =>
                            m_document_id (row_metadata kv.2) = Some doc_id)
                    (collection st) !! k = Some r)
      by (apply map_lookup_filter_Some; split; assumption).
    rewrite Hnone, lookup_empty in Hin. discriminate.
  - split; [discriminate|]. intros Hall. exfalso. apply Hnone.
    apply dom_empty_iff_L, map_empty. intros k.
    apply eq_None_not_Some. intros [r [Hk Hdoc]%map_lookup_filter_Some].
    exact (Hall k r Hk Hdoc).
Qed.

Lemma delete_document_false doc_id st :
  (delete_document doc_id st).1 = false -> (delete_document doc_id st).2 = st.
Proof.
  unfold delete_document. destruct (index_get_rejects ["ids"]); [reflexivity|].
  case_bool_decide; [reflexivity|discriminate].
Qed.

(** X5: [delete_document] with an engine that raises on a [get] asked
    to include ['ids'] answers [False] and leaves the store as it was,
    whatever rows the document has.  With an engine that answers that
    [get], it answers [False] exactly when the collection holds no row
    of the document, and the rows left are the rows of the other
    documents.  With either engine an answer [False] means an untouched
    store, the rows of the other documents stay as they are, and a
    second deletion of the same document answers [False] and changes
    nothing. *)
Theorem delete_document_effects (doc_id : string) (st : store) :
  let outcome := delete_document doc_id st in
  (index_get_rejects ["ids"] = true -> outcome = (false, st)) /\
  (index_get_rejects ["ids"] = false ->
   (outcome.1 = false <->
    forall k r, collection st !! k = Some r ->
                m_document_id (row_metadata r) <> Some doc_id) /\
   (forall k r,
       collection outcome.2 !! k = Some r <->
       collection st !! k = Some r /\
       m_document_id (row_metadata r) <> Some doc_id)) /\
  (outcome.1 = false -> outcome.2 = st) /\
  (forall k r,
      collection st !! k = Some r ->
      m_document_id (row_metadata r) <> Some doc_id ->
      collection outcome.2 !! k = Some r) /\
  delete_document doc_id outcome.2 = (false, outcome.2).
Proof.
  cbn zeta. split; [apply delete_document_refused|].
  split.
  { intros Hanswered. split; [now apply delete_document_found|].
    intros k r. now apply delete_document_rows. }
  split; [apply delete_document_false|].
  split; [intros k r; apply delete_document_keeps_others|].
  destruct (index_get_rejects ["ids"]) eqn:Hengine.
  { now rewrite !delete_document_refused. }
  assert (Hgone : (delete_document doc_id (delete_document doc_id st).2).1 = false).
  { apply delete_document_found; [exact Hengine|].
    intros k r Hk. now apply delete_document_rows in Hk. }
  pose proof (delete_document_false _ _ Hgone) as Hsame.
  destruct (delete_document doc_id (delete_document doc_id st).2) as [answer st'].
  cbn [fst snd] in Hgone, Hsame. now subst.
Qed.

(** X6: [update_document] of a document without an id does nothing.
    For a document with an id, the rows of the other documents are
    untouched.  With an engine that raises on a [get] asked to include
    ['ids'] the update is [add_document] on the store as it was: every
    row that was there is still there with its old content, the chunks
    of the earlier version included.  With an engine that answers that
    [get], every row of the document sits under one of the returned
    chunk ids and holds a chunk of the new content. *)
Theorem update_document_effects (d : document) (st : store) :
  let content := default EmptyString (d_content d) in
  let outcome := update_document d st in
  (default EmptyString (d_id d) = EmptyString -> outcome = ([], st)) /\
  (forall doc_id,
      d_id d = Some doc_id -> doc_id <> EmptyString ->
      (forall k r, collection st !! k = Some r ->
                   m_document_id (row_metadata r) <> Some doc_id ->
                   collection outcome.2 !! k = Some r) /\
      (index_get_rejects ["ids"] = true ->
       outcome = add_document d st /\
       forall k r, collection st !! k = Some r ->
                   collection outcome.2 !! k = Some r) /\
      (index_get_rejects ["ids"] = false ->
       forall k r, collection outcome.2 !! k = Some r ->
                   m_document_id (row_metadata r) = Some doc_id ->
                   k ∈ outcome.1 /\
                   row_document r ∈ _chunk_text content None None)).
Proof.
  cbn zeta. unfold update_document. split.
  { destruct (d_id d) as [[|c doc_id]|]; cbn; try reflexivity. discriminate. }
  intros doc_id Hid Hne. rewrite Hid.
  destruct doc_id as [|c doc_id]; [congruence|]. cbn [is_empty].
  set (doc := String c doc_id) in *. split; [|split].
  - intros k r Hk Hother. apply add_document_keeps.
    now apply delete_document_keeps_others.
  - intros Hrefused. rewrite delete_document_refused by exact Hrefused.
    cbn [snd]. split; [reflexivity|].
    intros k r Hk. now apply add_document_keeps.
  - intros Hanswered k r Hk Hdoc.
    destruct (collection (delete_document doc st).2 !! k) as [r'|] eqn:Hbefore.
    + pose proof (add_document_keeps d _ k r' Hbefore) as Hkept.
      rewrite Hk in Hkept. injection Hkept as <-.
      apply delete_document_rows in Hbefore as [_ Hother]; [|exact Hanswered].
      contradiction.
    + apply add_document_new in Hk as (Hin & Hchunk & _); [|exact Hbefore].
      split; assumption.
Qed.

(** X7: [get_document_by_id] looks among chunk ids, and the chunks of a
    document never sit under the document's own id: asking for a
    document by the id it has just been added under finds what was
    there before the addition. *)
Theorem get_document_by_id_misses_document (d : document) (st : store) :
  let doc_id := default (uuid4 (uuid_calls st)) (d_id d) in
  get_document_by_id doc_id (add_document d st).2 = get_document_by_id doc_id st.
Proof.
  cbn zeta. unfold get_document_by_id.
  set (doc_id := default (uuid4 (uuid_calls st)) (d_id d)).
  destruct (collection st !! doc_id) as [r|] eqn:Hbefore.
  - now rewrite (add_document_keeps d st doc_id r Hbefore).
  - destruct (collection (add_document d st).2 !! doc_id) as [r|] eqn:Hafter;
      [|reflexivity].
    exfalso. unfold add_document in Hafter.
    destruct (is_empty _); cbn [snd collection tick_uuid] in Hafter; [congruence|].
    apply add_chunks_new in Hafter as [Hold|(j & chunk & _ & Hkey & _)].
    + cbn in Hold. congruence.
    + symmetry in Hkey. fold doc_id in Hkey. now apply chunk_id_of_longer in Hkey.
Qed.

End StoreLifecycle.

Lemma delete_document_effects_witness :
  is_Some (collection Scenarios.tracked_note.2 !! "note1_chunk_0") /\
  @VectorStore.delete_document Scenarios.plain_index "note1"
    Scenarios.tracked_note.2
  = (false, Scenarios.tracked_note.2) /\
  (forall k r,
      collection
        (@VectorStore.delete_document Scenarios.lenient_index "note1"
           Scenarios.tracked_note.2).2 !! k = Some r ->
      m_document_id (row_metadata r) <> Some "note1").
Proof.
  split; [vm_compute; eexists; reflexivity|]. split.
  - destruct (@delete_document_effects Scenarios.plain_index "note1"
                Scenarios.tracked_note.2) as [Hrefused _].
    apply Hrefused. reflexivity.
  - intros k r Hk.
    destruct (@delete_document_effects Scenarios.lenient_index "note1"
                Scenarios.tracked_note.2) as (_ & Hanswered & _).
    destruct Hanswered as [_ Hrows]; [reflexivity|].
    now apply Hrows in Hk.
Defined.

Lemma update_document_effects_witness :
  let update engine :=
    @VectorStore.update_document Scenarios.gateway_up engine
      Scenarios.plain_runtime in
  (row_document
     <$> collection (update Scenarios.plain_index Scenarios.revised_note
                       Scenarios.tracked_note.2).2 !! "note1_chunk_0")
  = Some "Chunks are embedded one by one." /\
  (forall k r,
      collection (update Scenarios.lenient_index Scenarios.revised_note
                    Scenarios.tracked_note.2).2 !! k = Some r ->
      m_document_id (row_metadata r) = Some "note1" ->
      row_document r = "Chunks are embedded one by one!") /\
  update Scenarios.plain_index
    (Scenarios.dated_document EmptyString "2000-01-01") Scenarios.empty_store
  = ([], Scenarios.empty_store).
Proof.
  cbv zeta. split; [|split].
  - destruct (@update_document_effects Scenarios.gateway_up Scenarios.plain_index
                Scenarios.plain_runtime Scenarios.revised_note
                Scenarios.tracked_note.2) as [_ Hrows].
    destruct (Hrows "note1") as (_ & Hrefused & _); [reflexivity|discriminate|].
    destruct Hrefused as [_ Hkept]; [reflexivity|].
    destruct (collection Scenarios.tracked_note.2 !! "note1_chunk_0") as [r|] eqn:Hrow;
      [|vm_compute in Hrow; discriminate].
    rewrite (Hkept "note1_chunk_0" r Hrow). cbn [fmap option_fmap option_map].
    vm_compute in Hrow. injection Hrow as <-. reflexivity.
  - intros k r Hk Hdoc.
    destruct (@update_document_effects Scenarios.gateway_up
                Scenarios.lenient_index Scenarios.plain_runtime
                Scenarios.revised_note Scenarios.tracked_note.2) as [_ Hrows].
    destruct (Hrows "note1") as (_ & _ & Hanswered); [reflexivity|discriminate|].
    destruct (Hanswered eq_refl k r Hk Hdoc) as [_ Hchunk].
    vm_compute in Hchunk. apply list_elem_of_singleton in Hchunk. exact Hchunk.
  - apply (@update_document_effects Scenarios.gateway_up Scenarios.plain_index
             Scenarios.plain_runtime
             (Scenarios.dated_document EmptyString "2000-01-01")
             Scenarios.empty_store).
    reflexivity.
Defined.

(** ** The retrieval pipeline *)

Module SortFacts.
Import Retriever.
Local Open Scope Q_scope.

Lemma insert_desc_sorted {A} (key : A -> Q) x l :
  StronglySorted (fun a b => key b <= key a) l ->
  StronglySorted (fun a b => key b <= key a) (insert_desc key x l).
Proof.
  induction l as [|y l IH]; intros Hsorted; cbn [insert_desc].
  - repeat constructor.
  - apply StronglySorted_inv in Hsorted as [Hl Hy].
    destruct (Qle_bool (key y) (key x)) eqn:Hle.
    + apply Qle_bool_iff in Hle.
      constructor; [constructor; assumption|].
      constructor; [exact Hle|].
      eapply Forall_impl; [exact Hy|]. intros z Hz. cbn in Hz.
      now apply Qle_trans with (key y).
    + constructor; [now apply IH|].
      rewrite RerankFacts.insert_desc_perm. constructor; [|exact Hy].
      apply Qlt_le_weak, Qnot_le_lt. intros Hle'.
      apply Qle_bool_iff in Hle'. congruence.
Qed.

Lemma sorted_desc_sorted {A} (key : A -> Q) (l : list A) :
  StronglySorted (fun a b => key b <= key a) (sorted_desc key l).
Proof.
  induction l as [|x l IH]; cbn [sorted_desc foldr]; [constructor|].
  now apply insert_desc_sorted.
Qed.

End SortFacts.

(** X8: [_rerank_results] returns the candidates it was given, each with
    its advanced score written, in an order where no result is followed
    by one with a higher advanced score. *)
Theorem rerank_results_sorted (query : string) (results : list search_result) :
  StronglySorted
    (fun a b => (Retriever.advanced_key b <= Retriever.advanced_key a)%Q)
    (Retriever._rerank_results query results) /\
  Retriever._rerank_results query results
  ≡ₚ map (Retriever.set_advanced_score query) results /\
  Forall
    (fun r => r_advanced_score r
              = Some (Retriever.calculate_advanced_score query r))
    (Retriever._rerank_results query results).
Proof.
  split; [apply SortFacts.sorted_desc_sorted|].
  split; [apply RerankFacts.rerank_results_perm|].
  rewrite RerankFacts.rerank_results_perm.
  apply Forall_fmap, Forall_forall. intros r _. reflexivity.
Qed.

Section RetrievalInvariants.
Context `{EmbeddingGateway} `{VectorIndex} `{ContentAggregator} `{Runtime}.
Import PyStr VectorStore Retriever.

Lemma list_slice_to_sublist {A} (l : list A) k : sublist (list_slice_to l k) l.
Proof. apply sublist_take. Qed.

Lemma list_slice_to_length {A} (l : list A) k :
  0 <= k -> Z.of_nat (length (list_slice_to l k)) <= k.
Proof.
  intros Hk. unfold list_slice_to, clamp. rewrite length_take.
  destruct (k <? 0) eqn:Hneg; [apply Z.ltb_lt in Hneg|]; lia.
Qed.

(** The candidates, the deduplicated candidates and the final results of
    one retrieval. *)
Lemma retrieve_shape st query k include_external rerank :
  let k' := py_or k Config.TOP_K_RESULTS in
  let initial_results := similarity_search st query (Some (k' * 2)) in
  exists external_results st',
    let all_results := initial_results ++ external_results in
    let deduplicated := _deduplicate_results all_results in
    let final_results :=
      list_slice_to
        (if rerank && (k' <? Z.of_nat (length deduplicated))
         then _rerank_results query deduplicated else deduplicated) k' in
    retrieve_relevant_context st query k include_external rerank
    = ({| rc_query := query;
          rc_results := final_results;
          rc_context_summary := _generate_context_summary query final_results;
          rc_total_results_found := Z.of_nat (length all_results);
          rc_external_sources_used := Z.of_nat (length external_results);
          rc_retrieval_metadata :=
            {| reranked := rerank;
               external_content_included := include_external;
               final_result_count := Z.of_nat (length final_results) |} |},
       st') /\
    (include_external = false -> external_results = [] /\ st' = st) /\
    (external_results = [] \/
     exists external_content,
       external_results = _convert_external_to_results external_content query).
Proof.
  cbn zeta. unfold retrieve_relevant_context.
  destruct (include_external && _) eqn:Hexternal.
  - destruct (_fetch_external_content st query) as [external_content st'].
    exists (_convert_external_to_results external_content query), st'.
    split; [|split].
    + destruct (rerank && _); reflexivity.
    + intros ->. discriminate.
    + right. eauto.
  - exists [], st. split; [|split; [auto|now left]].
    destruct (rerank && _); reflexivity.
Qed.

Lemma final_results_sublist query (deduplicated : list search_result) k' (ran : bool) :
  exists ordered,
    ordered ≡ₚ (if ran then map (set_advanced_score query) deduplicated
                else deduplicated) /\
    sublist
      (list_slice_to
         (if ran then _rerank_results query deduplicated else deduplicated) k')
      ordered.
Proof.
  destruct ran.
  - exists (_rerank_results query deduplicated).
    split; [apply RerankFacts.rerank_results_perm|apply list_slice_to_sublist].
  - exists deduplicated. split; [reflexivity|apply list_slice_to_sublist].
Qed.

(** X9: a retrieval asked for [k > 0] results returns at most [k] of
    them; the count it reports is the number of results returned, which
    never exceeds the number of candidates found; and a retrieval that
    is told not to use external content uses none and leaves the store
    as it was. *)
Theorem retrieve_counts
    (st : store) (query : string) (k : option Z) (include_external rerank : bool) :
  let k' := py_or k Config.TOP_K_RESULTS in
  let outcome := retrieve_relevant_context st query k include_external rerank in
  let context := outcome.1 in
  (0 < k' -> Z.of_nat (length (rc_results context)) <= k') /\
  final_result_count (rc_retrieval_metadata context)
  = Z.of_nat (length (rc_results context)) /\
  Z.of_nat (length (rc_results context)) <= rc_total_results_found context /\
  rc_external_sources_used context <= rc_total_results_found context /\
  (include_external = false ->
   rc_external_sources_used context = 0 /\ outcome.2 = st).
Proof.
  cbn zeta.
  destruct (retrieve_shape st query k include_external rerank)
    as (external_results & st' & -> & Hoff & _).
  cbn [fst snd rc_results rc_retrieval_metadata final_result_count
       rc_total_results_found rc_external_sources_used].
  split; [intros Hk; apply list_slice_to_length; lia|].
  split; [reflexivity|]. split; [|split].
  - set (all_results := similarity_search st query _ ++ external_results).
    set (deduplicated := _deduplicate_results all_results).
    set (ran := rerank && _).
    destruct (final_results_sublist query deduplicated
                (py_or k Config.TOP_K_RESULTS) ran)
      as (ordered & Hperm & Hsub).
    apply sublist_length in Hsub. apply Permutation_length in Hperm.
    assert (Hdedup : (length deduplicated <= length all_results)%nat).
    { apply sublist_length. subst deduplicated.
      rewrite deduplicate_results_loop. apply dedup_loop_sublist. }
    destruct ran; rewrite ?length_map in Hperm; lia.
  - rewrite length_app. lia.
  - intros Hno. destruct (Hoff Hno) as [-> ->]. split; reflexivity.
Qed.

Lemma convert_loop_scores external_content query : forall results,
  Forall scores_as_computed results ->
  Forall scores_as_computed (convert_loop external_content query results).
Proof.
  induction external_content as [|content rest IH]; intros results Hall;
    cbn [convert_loop]; [exact Hall|].
  destruct (_generate_embedding query); [now apply IH|].
  destruct (_generate_embedding _); [now apply IH|].
  apply IH, Forall_app. split; [exact Hall|].
  constructor; [|constructor]. right. split; reflexivity.
Qed.

Lemma similarity_search_scores st query k :
  Forall scores_as_computed (similarity_search st query k).
Proof.
  unfold similarity_search.
  destruct (_generate_embedding query); [constructor|].
  destruct (index_query _ _ _) as [hits|]; [|constructor].
  apply Forall_fmap, Forall_forall. intros [[id r] distance] _. left. reflexivity.
Qed.

(** X10: in every returned context, no two results have the same hash of
    their lowercased, stripped first 200 characters; and each result
    either carries a similarity score computed as 1 - distance, or is
    marked as external and carries a distance computed as
    1 - similarity score, whether or not it was reranked. *)
Theorem retrieve_results_wellformed
    (st : store) (query : string) (k : option Z) (include_external rerank : bool) :
  let context :=
    (retrieve_relevant_context st query k include_external rerank).1 in
  NoDup (content_hash <$> rc_results context) /\
  Forall scores_as_computed (rc_results context).
Proof.
  cbn zeta.
  destruct (retrieve_shape st query k include_external rerank)
    as (external_results & st' & -> & _ & Hexternal).
  cbn [fst rc_results].
  set (all_results := similarity_search st query _ ++ external_results).
  destruct (final_results_sublist query (_deduplicate_results all_results)
              (py_or k Config.TOP_K_RESULTS)
              (rerank && (py_or k Config.TOP_K_RESULTS
                          <? Z.of_nat (length (_deduplicate_results all_results)))))
    as (ordered & Hperm & Hsub).
  assert (Hhashes : content_hash <$> ordered
                    ≡ₚ content_hash <$> _deduplicate_results all_results).
  { rewrite Hperm. destruct (rerank && _); [|reflexivity].
    rewrite <- list_fmap_compose. reflexivity. }
  assert (Hscores : Forall scores_as_computed all_results).
  { apply Forall_app. split; [apply similarity_search_scores|].
    destruct Hexternal as [->|[external_content ->]]; [constructor|].
    unfold _convert_external_to_results.
    rewrite RerankFacts.sorted_desc_perm. apply convert_loop_scores. constructor. }
  split.
  - eapply sublist_NoDup; [|apply fmap_sublist, Hsub].
    rewrite Hhashes, deduplicate_results_loop. apply dedup_loop_nodup.
  - eapply Forall_forall. intros r Hr.
    eapply elem_of_sublist in Hr; [|exact Hsub].
    rewrite Hperm in Hr.
    assert (Hdedup : forall r0, r0 ∈ _deduplicate_results all_results ->
                                scores_as_computed r0).
    { intros r0 Hr0. rewrite deduplicate_results_loop in Hr0.
      eapply elem_of_sublist in Hr0; [|apply dedup_loop_sublist].
      rewrite Forall_forall in Hscores. now apply Hscores. }
    destruct (rerank && _).
    + apply list_elem_of_fmap in Hr as (r0 & -> & Hr0).
      exact (Hdedup r0 Hr0).
    + now apply Hdedup.
Qed.

End RetrievalInvariants.

Lemma retrieve_counts_witness :
  Z.of_nat
    (length
       (rc_results
          (@Retriever.retrieve_relevant_context Scenarios.gateway_up
             Scenarios.plain_index Scenarios.quiet_aggregator
             Scenarios.plain_runtime Scenarios.aged.2 "quarterly figures"
             (Some 2) false true).1)) <= 2.
Proof.
  apply (@retrieve_counts Scenarios.gateway_up Scenarios.plain_index
           Scenarios.quiet_aggregator Scenarios.plain_runtime Scenarios.aged.2
           "quarterly figures" (Some 2) false true).
  reflexivity.
Defined.

(** ** Key terms *)

Module KeyTermFacts.
Import PyStr KeyTerms.

Lemma lower_char_not_upper c : isupper (lower_char c) = false.
Proof. destruct c as [[] [] [] [] [] [] [] []]; reflexivity. Qed.

Lemma alpha_is_word c : isalpha c = true -> isword c = true.
Proof. unfold isword. now intros ->. Qed.

Lemma alpha_not_space c : isalpha c = true -> isspace c = false.
Proof. destruct c as [[] [] [] [] [] [] [] []]; vm_compute; congruence. Qed.

Lemma space_not_word : isword " " = false.
Proof. reflexivity. Qed.

Lemma lower_char_lower_letter c : isupper c = false -> lower_char c = c.
Proof. unfold lower_char. now intros ->. Qed.

Lemma chars_lower s :
  list_ascii_of_string (lower s) = map lower_char (list_ascii_of_string s).
Proof. induction s as [|c s IH]; cbn; [reflexivity|now rewrite IH]. Qed.

Lemma chars_append s t :
  list_ascii_of_string (s +:+ t) = list_ascii_of_string s ++ list_ascii_of_string t.
Proof.
  induction s as [|c s IH]; [reflexivity|].
  change (String c s +:+ t) with (String c (s +:+ t)). cbn. now rewrite IH.
Qed.

Lemma chars_of_rev cur : list_ascii_of_string (of_rev cur) = rev cur.
Proof. apply list_ascii_of_string_of_list_ascii. Qed.

Lemma of_rev_chars s cur :
  of_rev (rev (list_ascii_of_string s) ++ cur) = of_rev cur +:+ s.
Proof.
  revert cur. induction s as [|c s IH]; intros cur; cbn [list_ascii_of_string rev].
  - cbn [app]. unfold of_rev.
    induction (string_of_list_ascii (rev cur)) as [|a t IHt]; [reflexivity|].
    change (String a t +:+ EmptyString) with (String a (t +:+ EmptyString)).
    now rewrite <- IHt.
  - rewrite <- app_assoc. cbn [app]. rewrite (IH (c :: cur)).
    unfold of_rev. cbn [rev]. generalize (rev cur). intros l.
    induction l as [|a l IHl]; [reflexivity|].
    cbn [app string_of_list_ascii].
    change (String a (string_of_list_ascii l) +:+ String c s)
      with (String a (string_of_list_ascii l +:+ String c s)).
    change (String a (string_of_list_ascii (l ++ [c])) +:+ s)
      with (String a (string_of_list_ascii (l ++ [c]) +:+ s)).
    now rewrite IHl.
Qed.

Lemma of_rev_nonempty c cur : of_rev (c :: cur) <> EmptyString.
Proof.
  intros Heq. apply (f_equal list_ascii_of_string) in Heq.
  rewrite chars_of_rev in Heq. cbn in Heq.
  destruct (rev cur); discriminate.
Qed.

(** Every match of the word pattern is a non-empty run of letters taken
    from the text. *)
Lemma findall_words_aux_letters (P : ascii -> Prop) s : forall cur pure,
  Forall P (list_ascii_of_string s) -> Forall P cur ->
  (pure = true -> Forall (fun c => isalpha c = true) cur) ->
  Forall (fun word => word <> EmptyString /\
                      Forall (fun c => isalpha c = true /\ P c)
                        (list_ascii_of_string word))
    (findall_words_aux s cur pure).
Proof.
  assert (Hflush : forall cur pure,
    Forall P cur -> (pure = true -> Forall (fun c => isalpha c = true) cur) ->
    Forall (fun word => word <> EmptyString /\
                        Forall (fun c => isalpha c = true /\ P c)
                          (list_ascii_of_string word))
      (flush_word cur pure)).
  { intros [|c cur] pure HP Halpha; cbn [flush_word]; [constructor|].
    destruct pure; [|constructor].
    constructor; [|constructor]. split; [apply of_rev_nonempty|].
    rewrite chars_of_rev. apply Forall_rev.
    specialize (Halpha eq_refl).
    apply Forall_forall. intros a Ha.
    rewrite Forall_forall in HP, Halpha. auto. }
  induction s as [|c s IH]; intros cur pure Hs Hcur Hpure;
    cbn [findall_words_aux]; [now apply Hflush|].
  cbn [list_ascii_of_string] in Hs. apply Forall_cons in Hs as [Hc Hs].
  destruct (isword c).
  - apply IH; [exact Hs|now constructor|].
    intros [-> Halpha]%andb_prop. constructor; [exact Halpha|now apply Hpure].
  - apply Forall_app. split; [now apply Hflush|].
    apply IH; [exact Hs|constructor|constructor].
Qed.

Lemma split_aux_word w : forall rest cur,
  Forall (fun c => isspace c = false) (list_ascii_of_string w) ->
  split_aux (w +:+ rest) cur
  = split_aux rest (rev (list_ascii_of_string w) ++ cur).
Proof.
  induction w as [|c w IH]; intros rest cur Hw; [reflexivity|].
  cbn [list_ascii_of_string] in Hw. apply Forall_cons in Hw as [Hc Hw].
  change (String c w +:+ rest) with (String c (w +:+ rest)).
  cbn [split_aux list_ascii_of_string rev]. rewrite Hc, IH by exact Hw.
  now rewrite <- app_assoc.
Qed.

Lemma append_empty_r s : s +:+ EmptyString = s.
Proof.
  induction s as [|c s IH]; [reflexivity|].
  change (String c s +:+ EmptyString) with (String c (s +:+ EmptyString)).
  now rewrite IH.
Qed.

Lemma flush_chars w :
  w <> EmptyString -> flush (rev (list_ascii_of_string w) ++ []) = [w].
Proof.
  intros Hw. rewrite app_nil_r.
  destruct w as [|c w]; [congruence|].
  unfold flush. cbn [list_ascii_of_string rev].
  destruct (rev (list_ascii_of_string w) ++ [c]) as [|a l] eqn:Hrev;
    [destruct (rev (list_ascii_of_string w)); discriminate|].
  rewrite <- Hrev. unfold of_rev. rewrite rev_app_distr, rev_involutive. cbn.
  now rewrite string_of_list_ascii_of_string.
Qed.

(** [' '.join(words).split()] gives the words back. *)
Lemma split_join words :
  Forall (fun word => word <> EmptyString /\
                      Forall (fun c => isspace c = false)
                        (list_ascii_of_string word)) words ->
  split (join " " words) = words.
Proof.
  unfold split. induction words as [|w words IH]; intros Hwords; [reflexivity|].
  apply Forall_cons in Hwords as [[Hne Hw] Hwords].
  destruct words as [|w' words].
  - cbn [join]. rewrite <- (append_empty_r w) at 1.
    rewrite split_aux_word by exact Hw. cbn [split_aux]. now apply flush_chars.
  - change (join " " (w :: w' :: words))
      with (w +:+ (" " +:+ join " " (w' :: words))).
    rewrite split_aux_word by exact Hw.
    change (" " +:+ join " " (w' :: words))
      with (String " " (join " " (w' :: words))).
    cbn [split_aux]. change (isspace " ") with true. cbv iota.
    rewrite flush_chars by exact Hne. rewrite IH by exact Hwords. reflexivity.
Qed.

Lemma selected_terms text :
  let terms :=
    take 5 (List.filter
              (fun word => negb (bool_decide (word ∈ stop_words)) && (2 <? len word))
              (findall_words (lower text))) in
  _extract_key_terms text = join " " terms /\
  (length terms <= 5)%nat /\
  Forall (fun term => term <> EmptyString /\ 2 < len term /\ (term ∉ stop_words) /\
                      Forall (fun c => isalpha c = true /\ isupper c = false)
                        (list_ascii_of_string term))
    terms.
Proof.
  cbn zeta. split; [reflexivity|]. split; [rewrite length_take; lia|].
  apply Forall_take, Forall_forall. intros term Hterm.
  apply list_elem_of_In, filter_In in Hterm as [Hword Hkept].
  apply andb_prop in Hkept as [Hstop Hlong].
  apply Z.ltb_lt in Hlong. apply negb_true_iff, bool_decide_eq_false in Hstop.
  assert (Hletters :
    Forall (fun word => word <> EmptyString /\
                        Forall (fun c => isalpha c = true /\ isupper c = false)
                          (list_ascii_of_string word))
      (findall_words (lower text))).
  { apply findall_words_aux_letters; [|constructor|constructor].
    rewrite chars_lower. apply Forall_fmap, Forall_forall.
    intros c _. apply lower_char_not_upper. }
  rewrite Forall_forall in Hletters.
  destruct (Hletters term) as [Hne Hchars]; [now apply list_elem_of_In|].
  repeat split; assumption.
Qed.

Lemma key_terms_split text :
  split (_extract_key_terms text)
  = take 5 (List.filter
              (fun word => negb (bool_decide (word ∈ stop_words)) && (2 <? len word))
              (findall_words (lower text))).
Proof.
  destruct (selected_terms text) as (Hjoin & _ & Hterms).
  rewrite Hjoin. apply split_join.
  eapply Forall_impl; [exact Hterms|].
  intros term (Hne & _ & _ & Hchars). split; [exact Hne|].
  eapply Forall_impl; [exact Hchars|].
  intros c [Halpha _]. now apply alpha_not_space.
Qed.

Lemma key_terms_count text : (length (split (_extract_key_terms text)) <= 5)%nat.
Proof. rewrite key_terms_split, length_take. lia. Qed.

End KeyTermFacts.

(** X11: [_extract_key_terms] returns at most five terms joined by single
    spaces, so that splitting its result gives the terms back; each term
    is made of lower-case letters only, has more than two characters and
    is no stop word. *)
Theorem extract_key_terms_terms (text : string) :
  let terms := PyStr.split (KeyTerms._extract_key_terms text) in
  KeyTerms._extract_key_terms text = PyStr.join " " terms /\
  (length terms <= 5)%nat /\
  Forall (fun term =>
            2 < PyStr.len term /\ (term ∉ KeyTerms.stop_words) /\
            Forall (fun c => PyStr.isalpha c = true /\ PyStr.isupper c = false)
              (list_ascii_of_string term))
    terms.
Proof.
  cbn zeta.
  destruct (KeyTermFacts.selected_terms text) as (Hjoin & Hcount & Hterms).
  pose proof (KeyTermFacts.key_terms_split text) as Hsplit.
  rewrite Hsplit. split; [exact Hjoin|]. split; [exact Hcount|].
  eapply Forall_impl; [exact Hterms|]. intros term (_ & Hlong & Hstop & Hchars).
  auto.
Qed.

Module KeyTermsAgain.
Import PyStr KeyTerms KeyTermFacts.

Lemma lower_unchanged s :
  Forall (fun c => isupper c = false) (list_ascii_of_string s) -> lower s = s.
Proof.
  induction s as [|c s IH]; cbn [list_ascii_of_string lower]; [reflexivity|].
  intros [Hc Hs]%Forall_cons. now rewrite lower_char_lower_letter, IH.
Qed.

Lemma join_not_upper words :
  Forall (fun word => Forall (fun c => isupper c = false)
                        (list_ascii_of_string word)) words ->
  Forall (fun c => isupper c = false) (list_ascii_of_string (join " " words)).
Proof.
  induction words as [|w words IH]; intros Hwords; [constructor|].
  apply Forall_cons in Hwords as [Hw Hwords].
  destruct words as [|w' words]; [exact Hw|].
  change (join " " (w :: w' :: words))
    with (w +:+ (" " +:+ join " " (w' :: words))).
  rewrite !chars_append. apply Forall_app. split; [exact Hw|].
  apply Forall_app. split; [repeat constructor|now apply IH].
Qed.

Lemma findall_words_aux_word w : forall rest cur pure,
  Forall (fun c => isalpha c = true) (list_ascii_of_string w) ->
  findall_words_aux (w +:+ rest) cur pure
  = findall_words_aux rest (rev (list_ascii_of_string w) ++ cur) pure.
Proof.
  induction w as [|c w IH]; intros rest cur pure Hw; [reflexivity|].
  cbn [list_ascii_of_string] in Hw. apply Forall_cons in Hw as [Hc Hw].
  change (String c w +:+ rest) with (String c (w +:+ rest)).
  cbn [findall_words_aux list_ascii_of_string rev].
  rewrite (alpha_is_word c Hc), Hc, andb_true_r, IH by exact Hw.
  now rewrite <- app_assoc.
Qed.

Lemma flush_word_chars w :
  w <> EmptyString -> flush_word (rev (list_ascii_of_string w) ++ []) true = [w].
Proof.
  intros Hw. pose proof (flush_chars w Hw) as Hflush.
  unfold flush in Hflush. unfold flush_word.
  destruct (rev (list_ascii_of_string w) ++ []); [discriminate|exact Hflush].
Qed.

(** The word pattern finds the words of [' '.join(words)] again. *)
Lemma findall_words_join words :
  Forall (fun word => word <> EmptyString /\
                      Forall (fun c => isalpha c = true)
                        (list_ascii_of_string word)) words ->
  findall_words (join " " words) = words.
Proof.
  unfold findall_words. induction words as [|w words IH]; intros Hwords;
    [reflexivity|].
  apply Forall_cons in Hwords as [[Hne Hw] Hwords].
  destruct words as [|w' words].
  - cbn [join]. rewrite <- (append_empty_r w) at 1.
    rewrite findall_words_aux_word by exact Hw.
    cbn [findall_words_aux]. now apply flush_word_chars.
  - change (join " " (w :: w' :: words))
      with (w +:+ (" " +:+ join " " (w' :: words))).
    rewrite findall_words_aux_word by exact Hw.
    change (" " +:+ join " " (w' :: words))
      with (String " " (join " " (w' :: words))).
    cbn [findall_words_aux]. rewrite space_not_word.
    rewrite flush_word_chars by exact Hne. rewrite IH by exact Hwords. reflexivity.
Qed.

Lemma filter_all {A} (keep : A -> bool) (l : list A) :
  Forall (fun x => keep x = true) l -> List.filter keep l = l.
Proof.
  induction l as [|x l IH]; intros Hall; [reflexivity|].
  apply Forall_cons in Hall as [Hx Hl]. cbn. now rewrite Hx, IH.
Qed.

End KeyTermsAgain.

(** X12: extracting the key terms of a string of key terms changes
    nothing: [_extract_key_terms] is idempotent. *)
Theorem extract_key_terms_idempotent (text : string) :
  KeyTerms._extract_key_terms (KeyTerms._extract_key_terms text)
  = KeyTerms._extract_key_terms text.
Proof.
  destruct (KeyTermFacts.selected_terms text) as (Hjoin & Hcount & Hterms).
  rewrite Hjoin. set (terms := take 5 _) in *.
  unfold KeyTerms._extract_key_terms at 1.
  rewrite KeyTermsAgain.lower_unchanged.
  - rewrite KeyTermsAgain.findall_words_join.
    + rewrite KeyTermsAgain.filter_all.
      * now rewrite take_ge by lia.
      * eapply Forall_impl; [exact Hterms|].
        intros term (_ & Hlong & Hstop & _).
        rewrite bool_decide_eq_false_2 by exact Hstop.
        apply Z.ltb_lt in Hlong. now rewrite Hlong.
    + eapply Forall_impl; [exact Hterms|].
      intros term (Hne & _ & _ & Hchars). split; [exact Hne|].
      eapply Forall_impl; [exact Hchars|]. now intros c [Halpha _].
  - apply KeyTermsAgain.join_not_upper.
    eapply Forall_impl; [exact Hterms|].
    intros term (_ & _ & _ & Hchars).
    eapply Forall_impl; [exact Hchars|]. now intros c [_ Hlower].
Qed.

(** ** Search patterns: exact counts and the popularity invariant *)

Module TrackCounts.
Import PyStr MemoryManager.

Lemma count_terms_exact terms : forall (patterns : gmap string Z) t,
  default 0 (foldl count_term patterns terms !! t)
  = default 0 (patterns !! t)
    + (if 3 <? len t then Z.of_nat (length (filter (eq t) terms)) else 0).
Proof.
  induction terms as [|term terms IH]; intros patterns t; cbn [foldl].
  - cbn. destruct (3 <? len t); lia.
  - rewrite IH, TrackFacts.count_term_lookup, filter_cons.
    case_bool_decide as Hterm.
    + subst term. rewrite decide_True by reflexivity.
      destruct (3 <? len t); cbn [andb default from_option id length]; lia.
    + rewrite decide_False by congruence. rewrite andb_false_r. reflexivity.
Qed.

End TrackCounts.

(** X13: one call of [track_search_pattern] raises the frequency of a
    term of more than three characters by the number of times the term
    occurs among the key terms of the query, of which there are at most
    five, and leaves every other frequency alone. *)
Theorem track_search_pattern_counts
    (mm : MemoryManager.memory) (query : string) (results_found : Z) (t : string) :
  let terms := PyStr.split (KeyTerms._extract_key_terms query) in
  let occurrences := Z.of_nat (length (filter (eq t) terms)) in
  let mm' := MemoryManager.track_search_pattern mm query results_found in
  default 0 (MemoryManager.search_patterns mm' !! t)
  = default 0 (MemoryManager.search_patterns mm !! t)
    + (if 3 <? PyStr.len t then occurrences else 0) /\
  0 <= occurrences <= 5.
Proof.
  cbn zeta. split; [apply TrackCounts.count_terms_exact|].
  pose proof (KeyTermFacts.key_terms_count query) as Hcount.
  pose proof (length_filter (eq t)
                (PyStr.split (KeyTerms._extract_key_terms query))).
  lia.
Qed.

Module PopularityFacts.
Import PyStr MemoryManager.

Lemma track_keeps_invariant mm query results_found :
  (forall t, t ∈ popular_topics mm -> 5 <= default 0 (search_patterns mm !! t)) ->
  forall t,
    t ∈ popular_topics (track_search_pattern mm query results_found) ->
    5 <= default 0
           (search_patterns (track_search_pattern mm query results_found) !! t).
Proof.
  intros Hinv t. cbn [track_search_pattern popular_topics search_patterns].
  intros [Hold|Hnew]%elem_of_union.
  - pose proof (TrackFacts.count_terms_grow
                  (split (KeyTerms._extract_key_terms query))
                  (search_patterns mm) t).
    specialize (Hinv t Hold). lia.
  - apply elem_of_dom in Hnew as [count Hcount].
    apply map_lookup_filter_Some in Hcount as [-> Hreached]. exact Hreached.
Qed.

Lemma track_admits_all mm query results_found t :
  5 <= default 0 (search_patterns (track_search_pattern mm query results_found) !! t) ->
  t ∈ popular_topics (track_search_pattern mm query results_found).
Proof.
  cbn [track_search_pattern popular_topics search_patterns]. intros Hreached.
  apply elem_of_union. right. apply elem_of_dom.
  destruct (foldl count_term (search_patterns mm) _ !! t) as [count|] eqn:Hcount;
    [|cbn in Hreached; lia].
  exists count. apply map_lookup_filter_Some. split; [exact Hcount|exact Hreached].
Qed.

End PopularityFacts.

(** X14: if every popular topic has a frequency of at least 5, this is
    still so after any sequence of [track_search_pattern] calls; and
    right after a call the popular topics are exactly the terms whose
    frequency is at least 5. *)
Theorem popular_topics_are_frequent_terms
    (mm : MemoryManager.memory) (calls : list (string * Z)) :
  (forall t, t ∈ MemoryManager.popular_topics mm ->
             5 <= default 0 (MemoryManager.search_patterns mm !! t)) ->
  let mm' :=
    foldl (fun m call => MemoryManager.track_search_pattern m call.1 call.2)
      mm calls in
  (forall t, t ∈ MemoryManager.popular_topics mm' ->
             5 <= default 0 (MemoryManager.search_patterns mm' !! t)) /\
  (calls <> [] ->
   forall t, t ∈ MemoryManager.popular_topics mm' <->
             5 <= default 0 (MemoryManager.search_patterns mm' !! t)).
Proof.
  intros Hinv. cbn zeta.
  assert (Hkept : forall calls mm,
    (forall t, t ∈ MemoryManager.popular_topics mm ->
               5 <= default 0 (MemoryManager.search_patterns mm !! t)) ->
    forall t,
      t ∈ MemoryManager.popular_topics
            (foldl (fun m call => MemoryManager.track_search_pattern m call.1 call.2)
               mm calls) ->
      5 <= default 0
             (MemoryManager.search_patterns
                (foldl (fun m call =>
                          MemoryManager.track_search_pattern m call.1 call.2)
                   mm calls) !! t)).
  { clear. intros calls. induction calls as [|call calls IH]; intros mm Hinv;
      cbn [foldl]; [exact Hinv|].
    apply IH. now apply PopularityFacts.track_keeps_invariant. }
  split; [now apply Hkept|].
  intros Hcalls t. split; [now apply Hkept|].
  destruct (exists_last Hcalls) as (earlier & [query results_found] & ->).
  rewrite foldl_app. cbn [foldl fst snd].
  apply PopularityFacts.track_admits_all.
Qed.

Lemma popular_topics_are_frequent_terms_witness :
  "vector" ∈ MemoryManager.popular_topics
               (MemoryManager.track_search_pattern MoreScenarios.popular_memory
                  "vector databases" 3) <->
  5 <= default 0
         (MemoryManager.search_patterns
            (MemoryManager.track_search_pattern MoreScenarios.popular_memory
               "vector databases" 3) !! "vector").
Proof.
  destruct (popular_topics_are_frequent_terms MoreScenarios.popular_memory
              [("vector databases", 3)]) as [_ Hexact].
  - intros t Ht. change (t ∈ ({["vector"]} : gset string)) in Ht.
    apply elem_of_singleton in Ht. subst t. vm_compute. discriminate.
  - apply Hexact. discriminate.
Defined.

(** ** Tracking and updating *)

Section TrackingFacts.
Context `{EmbeddingGateway} `{VectorIndex} `{Runtime}.
Import PyStr VectorStore MemoryManager.

Lemma update_unchanged mm st d :
  document_checksums mm !! default EmptyString (d_id d)
  = Some (_calculate_document_checksum d) ->
  update_document_if_changed mm st d = (false, mm, st).
Proof.
  intros Htracked. unfold update_document_if_changed.
  destruct (is_empty _); [reflexivity|].
  rewrite bool_decide_eq_false_2; [reflexivity|]. intros Hne. now apply Hne.
Qed.

Lemma add_with_tracking_tracks mm st d :
  (add_document_with_tracking mm st d).1.1 <> [] ->
  document_checksums (add_document_with_tracking mm st d).1.2
    !! default EmptyString (d_id d)
  = Some (_calculate_document_checksum d).
Proof.
  unfold add_document_with_tracking.
  destruct (is_empty _); [cbn; congruence|].
  destruct (add_document d st) as [[|chunk_id chunk_ids] st'];
    cbn [fst snd]; [congruence|]. intros _. apply lookup_insert_eq.
Qed.

Lemma update_if_changed_tracks mm st d :
  (update_document_if_changed mm st d).1.1 = true ->
  document_checksums (update_document_if_changed mm st d).1.2
    !! default EmptyString (d_id d)
  = Some (_calculate_document_checksum d).
Proof.
  unfold update_document_if_changed.
  destruct (is_empty _); [cbn; congruence|].
  case_bool_decide; [|cbn; congruence].
  destruct (update_document d st) as [[|chunk_id chunk_ids] st'];
    cbn [fst snd]; [congruence|]. intros _. apply lookup_insert_eq.
Qed.

(** X15: a document that [add_document_with_tracking] has just stored
    (it returned chunk ids), or that [update_document_if_changed] has
    just updated (it returned [True]), is found unchanged by the next
    [update_document_if_changed]: it returns [False] and touches neither
    the memory nor the store.  A document without id, or for which no
    chunk id came back, is not tracked. *)
Theorem tracked_document_is_stable (mm : memory) (st : store) (d : document) :
  let added := add_document_with_tracking mm st d in
  let updated := update_document_if_changed mm st d in
  (added.1.1 <> [] ->
   update_document_if_changed added.1.2 added.2 d = (false, added.1.2, added.2)) /\
  (added.1.1 = [] -> added.1.2 = mm) /\
  (default EmptyString (d_id d) = EmptyString ->
   added = ([], mm, st) /\ updated = (false, mm, st)) /\
  (updated.1.1 = true ->
   update_document_if_changed updated.1.2 updated.2 d
   = (false, updated.1.2, updated.2)).
Proof.
  cbn zeta. split; [|split; [|split]].
  - intros Hids. now apply update_unchanged, add_with_tracking_tracks.
  - unfold add_document_with_tracking.
    destruct (is_empty _); [reflexivity|].
    destruct (add_document d st) as [[|chunk_id chunk_ids] st'];
      cbn [fst snd]; [reflexivity|discriminate].
  - intros Hid. unfold add_document_with_tracking, update_document_if_changed.
    rewrite Hid. cbn [is_empty]. split; reflexivity.
  - intros Hupdated. now apply update_unchanged, update_if_changed_tracks.
Qed.

End TrackingFacts.

Lemma tracked_document_is_stable_witness :
  let added :=
    @MemoryManager.add_document_with_tracking Scenarios.gateway_up
      Scenarios.plain_index Scenarios.plain_runtime Scenarios.empty_memory
      Scenarios.empty_store Scenarios.note_document in
  @MemoryManager.update_document_if_changed Scenarios.gateway_up
    Scenarios.plain_index Scenarios.plain_runtime added.1.2 added.2
    Scenarios.note_document
  = (false, added.1.2, added.2).
Proof.
  destruct (@tracked_document_is_stable Scenarios.gateway_up Scenarios.plain_index
              Scenarios.plain_runtime Scenarios.empty_memory Scenarios.empty_store
              Scenarios.note_document) as [Hadded _].
  apply Hadded. intros Hnone. vm_compute in Hnone. discriminate Hnone.
Defined.

(** ** Removal of duplicate chunks *)

Section DuplicateFacts.
Context `{VectorIndex} `{Runtime}.
Import PyStr VectorStore Maintenance.

Lemma find_duplicates_acc rows : forall seen dups,
  (foldl note_duplicate (seen, dups) rows).2
  = dups ++ (foldl note_duplicate (seen, []) rows).2.
Proof.
  induction rows as [|kv rows IH]; intros seen dups; cbn [foldl].
  - cbn. now rewrite app_nil_r.
  - unfold note_duplicate at 2 4. cbn [fst snd].
    case_bool_decide; [|apply IH].
    rewrite (IH seen (dups ++ [kv.1])), (IH seen ([] ++ [kv.1])).
    now rewrite <- app_assoc.
Qed.

Lemma find_duplicates_step seen kv rows :
  (foldl note_duplicate (seen, []) (kv :: rows)).2
  = if bool_decide (is_Some (seen !! md5_hexdigest (row_document kv.2)))
    then kv.1 :: (foldl note_duplicate (seen, []) rows).2
    else (foldl note_duplicate
            (<[md5_hexdigest (row_document kv.2) := kv.1]> seen, []) rows).2.
Proof.
  cbn [foldl]. unfold note_duplicate at 2. cbn [fst snd].
  case_bool_decide; [|reflexivity].
  now rewrite find_duplicates_acc.
Qed.

(** A duplicate is the key of one of the rows. *)
Lemma duplicates_are_rows rows : forall seen k,
  k ∈ (foldl note_duplicate (seen, []) rows).2 -> k ∈ rows.*1.
Proof.
  induction rows as [|kv rows IH]; intros seen k.
  - cbn. intros Hk. inversion Hk.
  - rewrite find_duplicates_step. cbn [fmap list_fmap].
    case_bool_decide.
    + intros [->|Hk]%elem_of_cons; [left|right; eapply IH, Hk].
    + intros Hk. right. eapply IH, Hk.
Qed.

(** A row that is not a duplicate has a content hash not seen before. *)
Lemma kept_rows_fresh rows : forall seen k r,
  (k, r) ∈ rows ->
  k ∉ (foldl note_duplicate (seen, []) rows).2 ->
  seen !! md5_hexdigest (row_document r) = None.
Proof.
  induction rows as [|kv rows IH]; intros seen k r Hrow; [inversion Hrow|].
  rewrite find_duplicates_step.
  apply elem_of_cons in Hrow as [<-|Hrow]; cbn [fst snd].
  - case_bool_decide as Hseen.
    + intros Hk. exfalso. apply Hk. left.
    + intros _. now apply eq_None_not_Some.
  - case_bool_decide as Hseen.
    + intros Hk. apply (IH seen k r Hrow). intros Hin. apply Hk. now right.
    + intros Hk. pose proof (IH _ k r Hrow Hk) as Hfresh.
      rewrite lookup_insert in Hfresh. case_decide; [discriminate|exact Hfresh].
Qed.

(** Two rows that are both kept have different content hashes. *)
Lemma kept_rows_distinct rows : forall seen k1 r1 k2 r2,
  NoDup rows.*1 ->
  (k1, r1) ∈ rows -> (k2, r2) ∈ rows ->
  k1 ∉ (foldl note_duplicate (seen, []) rows).2 ->
  k2 ∉ (foldl note_duplicate (seen, []) rows).2 ->
  md5_hexdigest (row_document r1) = md5_hexdigest (row_document r2) ->
  k1 = k2.
Proof.
  induction rows as [|[k0 r0] rows IH]; intros seen k1 r1 k2 r2 Hkeys H1;
    [inversion H1|].
  cbn [fmap list_fmap] in Hkeys. apply NoDup_cons in Hkeys as [Hfirst Hkeys].
  rewrite find_duplicates_step. cbn [fst snd].
  intros H2. case_bool_decide as Hseen.
  - intros Hk1 Hk2 Hhash.
    apply elem_of_cons in H1 as [[= -> ->]|H1]; [exfalso; apply Hk1; left|].
    apply elem_of_cons in H2 as [[= -> ->]|H2]; [exfalso; apply Hk2; left|].
    apply (IH seen k1 r1 k2 r2 Hkeys H1 H2); [| |exact Hhash];
      intros Hin; [apply Hk1|apply Hk2]; now right.
  - intros Hk1 Hk2 Hhash.
    apply elem_of_cons in H1 as [[= -> ->]|H1];
      apply elem_of_cons in H2 as [[= -> ->]|H2].
    + reflexivity.
    + pose proof (kept_rows_fresh rows _ k2 r2 H2 Hk2) as Hfresh.
      rewrite <- Hhash, lookup_insert_eq in Hfresh. discriminate.
    + pose proof (kept_rows_fresh rows _ k1 r1 H1 Hk1) as Hfresh.
      rewrite Hhash, lookup_insert_eq in Hfresh. discriminate.
    + apply (IH _ k1 r1 k2 r2 Hkeys H1 H2 Hk1 Hk2 Hhash).
Qed.

(** Every content hash among the rows is seen already or kept. *)
Lemma contents_survive rows : forall seen k r,
  NoDup rows.*1 ->
  (k, r) ∈ rows ->
  is_Some (seen !! md5_hexdigest (row_document r)) \/
  exists k' r',
    (k', r') ∈ rows /\
    (k' ∉ (foldl note_duplicate (seen, []) rows).2) /\
    md5_hexdigest (row_document r') = md5_hexdigest (row_document r).
Proof.
  induction rows as [|kv rows IH]; intros seen k r Hkeys Hrow; [inversion Hrow|].
  cbn [fmap list_fmap] in Hkeys. apply NoDup_cons in Hkeys as [Hfirst Hkeys].
  rewrite find_duplicates_step.
  assert (Hother : forall k' r', (k', r') ∈ rows -> k' <> kv.1).
  { intros k' r' Hin ->. apply Hfirst.
    apply list_elem_of_fmap. exists (kv.1, r'). split; [reflexivity|exact Hin]. }
  case_bool_decide as Hseen.
  - apply elem_of_cons in Hrow as [<-|Hrow]; [now left|].
    destruct (IH seen k r Hkeys Hrow) as [Hold|(k' & r' & Hin & Hkept & Hhash)];
      [now left|right].
    exists k', r'. split; [now right|]. split; [|exact Hhash].
    intros [->|Hdup]%elem_of_cons; [now apply (Hother _ r' Hin)|contradiction].
  - assert (Hhead : kv.1 ∉ (foldl note_duplicate
                      (<[md5_hexdigest (row_document kv.2) := kv.1]> seen, [])
                      rows).2).
    { intros Hdup%duplicates_are_rows. contradiction. }
    apply elem_of_cons in Hrow as [<-|Hrow].
    + right. exists k, r. split; [left|]. split; [exact Hhead|reflexivity].
    + destruct (IH (<[md5_hexdigest (row_document kv.2) := kv.1]> seen)
                  k r Hkeys Hrow)
        as [Hold|(k' & r' & Hin & Hkept & Hhash)].
      * rewrite lookup_insert in Hold. case_decide as Hsame; [|now left].
        right. exists kv.1, kv.2. split; [destruct kv; left|].
        split; [exact Hhead|exact Hsame].
      * right. exists k', r'. split; [now right|]. split; assumption.
Qed.

(** No row is a duplicate when all content hashes differ. *)
Lemma no_duplicates_found rows : forall seen,
  NoDup ((fun kv : string * row => md5_hexdigest (row_document kv.2)) <$> rows) ->
  (forall kv, kv ∈ rows -> seen !! md5_hexdigest (row_document kv.2) = None) ->
  (foldl note_duplicate (seen, []) rows).2 = [].
Proof.
  induction rows as [|kv rows IH]; intros seen Hhashes Hfresh; [reflexivity|].
  cbn [fmap list_fmap] in Hhashes. apply NoDup_cons in Hhashes as [Hfirst Hhashes].
  rewrite find_duplicates_step.
  rewrite bool_decide_eq_false_2.
  - apply IH; [exact Hhashes|]. intros kv' Hin.
    rewrite lookup_insert. case_decide as Hsame.
    + exfalso. apply Hfirst. apply list_elem_of_fmap. exists kv'.
      split; [exact Hsame|exact Hin].
    + apply Hfresh. now right.
  - rewrite Hfresh by left. now intros [? ?].
Qed.

Lemma remove_duplicate_chunks_refused st :
  index_get_rejects ["documents"; "ids"] = true ->
  _remove_duplicate_chunks st = st.
Proof. intros Hrefused. unfold _remove_duplicate_chunks. now rewrite Hrefused. Qed.

Lemma remove_duplicate_chunks_rows st k r :
  index_get_rejects ["documents"; "ids"] = false ->
  collection (_remove_duplicate_chunks st) !! k = Some r <->
  collection st !! k = Some r /\
  k ∉ (find_duplicates (map_to_list (collection st))).2.
Proof.
  intros Hanswered. unfold _remove_duplicate_chunks. rewrite Hanswered.
  destruct (map_to_list (collection st)) as [|kv rows] eqn:Hrows.
  - split; [|tauto]. intros Hk. split; [exact Hk|]. cbn. intros Hin. inversion Hin.
  - destruct (find_duplicates (kv :: rows)).2 as [|dup dups] eqn:Hdups.
    + split; [|tauto]. intros Hk. split; [exact Hk|]. intros Hin. inversion Hin.
    + cbn [collection]. apply map_lookup_filter_Some.
Qed.

(** X16: with an engine that raises on a [get] asked to include
    ['documents', 'ids'], [_remove_duplicate_chunks] leaves the store as
    it was, duplicates included.  With an engine that answers that
    [get], no two rows with the same content md5 are left.  With either
    engine the rows it keeps are untouched, at least one row is kept
    for every content (md5) that was stored, and a second run changes
    nothing and issues no call.  [optimize_vector_store] does the same. *)
Theorem remove_duplicate_chunks_effects (st : store) :
  let st' := _remove_duplicate_chunks st in
  (index_get_rejects ["documents"; "ids"] = true -> st' = st) /\
  (index_get_rejects ["documents"; "ids"] = false ->
   forall k1 r1 k2 r2,
     collection st' !! k1 = Some r1 -> collection st' !! k2 = Some r2 ->
     md5_hexdigest (row_document r1) = md5_hexdigest (row_document r2) ->
     k1 = k2) /\
  (forall k r, collection st' !! k = Some r -> collection st !! k = Some r) /\
  (forall k r, collection st !! k = Some r ->
     exists k' r', collection st' !! k' = Some r' /\
                   md5_hexdigest (row_document r')
                   = md5_hexdigest (row_document r)) /\
  _remove_duplicate_chunks st' = st' /\
  optimize_vector_store st = st'.
Proof.
  cbn zeta. split; [apply remove_duplicate_chunks_refused|].
  destruct (index_get_rejects ["documents"; "ids"]) eqn:Hengine.
  { rewrite !remove_duplicate_chunks_refused by exact Hengine.
    split; [discriminate|]. split; [tauto|]. split; [|split; reflexivity].
    intros k r Hk. now exists k, r. }
  assert (Hrows : forall k r,
    collection (_remove_duplicate_chunks st) !! k = Some r <->
    collection st !! k = Some r /\
    k ∉ (find_duplicates (map_to_list (collection st))).2)
    by (intros k r; now apply remove_duplicate_chunks_rows).
  assert (Hdistinct : forall k1 r1 k2 r2,
    collection (_remove_duplicate_chunks st) !! k1 = Some r1 ->
    collection (_remove_duplicate_chunks st) !! k2 = Some r2 ->
    md5_hexdigest (row_document r1) = md5_hexdigest (row_document r2) ->
    k1 = k2).
  { intros k1 r1 k2 r2 [H1 Hk1]%Hrows [H2 Hk2]%Hrows Hhash.
    apply elem_of_map_to_list in H1, H2.
    apply (kept_rows_distinct (map_to_list (collection st)) ∅ k1 r1 k2 r2
             (NoDup_fst_map_to_list _) H1 H2 Hk1 Hk2 Hhash). }
  split; [intros _; exact Hdistinct|].
  split; [intros k r Hk; now apply Hrows in Hk|].
  split.
  { intros k r Hk. apply elem_of_map_to_list in Hk.
    destruct (contents_survive (map_to_list (collection st)) ∅ k r
                (NoDup_fst_map_to_list _) Hk)
      as [[? Hseen]|(k' & r' & Hin & Hkept & Hhash)];
      [rewrite lookup_empty in Hseen; discriminate|].
    exists k', r'. split; [|exact Hhash].
    apply Hrows. split; [|exact Hkept].
    now apply elem_of_map_to_list. }
  split; [|reflexivity].
  unfold _remove_duplicate_chunks at 1. rewrite Hengine.
  destruct (map_to_list (collection (_remove_duplicate_chunks st)))
    as [|kv rows] eqn:Hlisted; [reflexivity|].
  rewrite <- Hlisted. unfold find_duplicates.
  rewrite no_duplicates_found; [reflexivity| |intros; apply lookup_empty].
  apply NoDup_fmap_2_strong; [|apply NoDup_map_to_list].
  intros [k1 r1] [k2 r2] H1%elem_of_map_to_list H2%elem_of_map_to_list Hhash.
  cbn [snd] in Hhash. pose proof (Hdistinct k1 r1 k2 r2 H1 H2 Hhash) as ->.
  rewrite H1 in H2. now injection H2 as ->.
Qed.

End DuplicateFacts.

(** ** External candidates *)

Section ExternalFacts.
Context `{EmbeddingGateway} `{VectorIndex} `{ContentAggregator} `{Runtime}.
Import PyStr VectorStore Retriever.

Lemma convert_loop_embedded external_content query : forall results,
  _generate_embedding query <> [] ->
  convert_loop external_content query results
  = results
    ++ map (fun content =>
              external_result content
                (cosine (_generate_embedding query)
                   (_generate_embedding (slice_to (f_content content) 1000))))
        (List.filter
           (fun content =>
              match _generate_embedding (slice_to (f_content content) 1000) with
              | [] => false
              | _ => true
              end)
           external_content).
Proof.
  intros results Hquery. revert results.
  induction external_content as [|content rest IH]; intros results;
    [cbn; symmetry; apply app_nil_r|].
  cbn [convert_loop List.filter].
  destruct (_generate_embedding (slice_to (f_content content) 1000))
    as [|y w] eqn:Hcontent.
  - destruct (_generate_embedding query); apply IH.
  - destruct (_generate_embedding query) as [|x v] eqn:Hq; [congruence|].
    rewrite IH. cbn [map]. rewrite Hcontent. now rewrite <- app_assoc.
Qed.

(** X17: when the query can be embedded, the external candidates are the
    fetched items whose leading 1000 characters can be embedded, each
    scored by the cosine of the two embeddings, with the others dropped;
    they come back ordered by descending similarity.  There are never
    more candidates than fetched items. *)
Theorem convert_external_to_results_contents
    (external_content : list fetched) (query : string) :
  let results := _convert_external_to_results external_content query in
  (_generate_embedding query <> [] ->
   results
   ≡ₚ map (fun content =>
             external_result content
               (cosine (_generate_embedding query)
                  (_generate_embedding (slice_to (f_content content) 1000))))
        (List.filter
           (fun content =>
              match _generate_embedding (slice_to (f_content content) 1000) with
              | [] => false
              | _ => true
              end)
           external_content)) /\
  StronglySorted
    (fun a b => (r_similarity_score b <= r_similarity_score a)%Q) results /\
  (length results <= length external_content)%nat.
Proof.
  cbn zeta. unfold _convert_external_to_results.
  split; [|split].
  - intros Hquery. rewrite RerankFacts.sorted_desc_perm.
    now rewrite convert_loop_embedded.
  - apply SortFacts.sorted_desc_sorted.
  - rewrite RerankFacts.sorted_desc_perm.
    destruct (_generate_embedding query) as [|x v] eqn:Hquery.
    + rewrite convert_loop_without_query_embedding by exact Hquery. cbn. lia.
    + rewrite convert_loop_embedded by congruence.
      cbn [app]. rewrite length_map. apply filter_length_le.
Qed.

End ExternalFacts.

Lemma convert_external_to_results_contents_witness :
  @Retriever._convert_external_to_results Scenarios.gateway_no_alpha
    Scenarios.plain_runtime
    [MoreScenarios.fetched_paper; MoreScenarios.fetched_news] "dense vectors"
  ≡ₚ [Retriever.external_result MoreScenarios.fetched_paper (1 # 2)].
Proof.
  destruct (@convert_external_to_results_contents Scenarios.gateway_no_alpha
              Scenarios.plain_runtime
              [MoreScenarios.fetched_paper; MoreScenarios.fetched_news]
              "dense vectors") as [Hresults _].
  rewrite Hresults; [reflexivity|]. intros Hnone. vm_compute in Hnone.
  discriminate Hnone.
Defined.

(** ** Batches of documents *)

Section BatchFacts.
Context `{EmbeddingGateway} `{VectorIndex} `{Runtime}.
Import PyStr Chunker VectorStore.

Lemma collection_add_same st1 st2 chunk_id r :
  collection st1 = collection st2 -> index_log st1 = index_log st2 ->
  collection (collection_add st1 chunk_id r)
  = collection (collection_add st2 chunk_id r) /\
  index_log (collection_add st1 chunk_id r)
  = index_log (collection_add st2 chunk_id r).
Proof.
  intros Hrows Hlog. unfold collection_add. rewrite Hrows, Hlog.
  destruct (_ || _); split; reflexivity.
Qed.

Lemma add_chunks_same d doc_id chunks : forall i st1 st2 chunk_ids,
  collection st1 = collection st2 -> index_log st1 = index_log st2 ->
  (add_chunks d doc_id i chunks st1 chunk_ids).1
  = (add_chunks d doc_id i chunks st2 chunk_ids).1 /\
  collection (add_chunks d doc_id i chunks st1 chunk_ids).2
  = collection (add_chunks d doc_id i chunks st2 chunk_ids).2 /\
  index_log (add_chunks d doc_id i chunks st1 chunk_ids).2
  = index_log (add_chunks d doc_id i chunks st2 chunk_ids).2.
Proof.
  induction chunks as [|chunk rest IH]; intros i st1 st2 chunk_ids Hrows Hlog;
    cbn [add_chunks]; [auto|].
  destruct (_generate_embedding chunk); [now apply IH|].
  apply IH; now apply collection_add_same.
Qed.

(** With an id of its own, what [add_document] does is the same
    whatever the number of uuids drawn before. *)
Lemma add_document_same d st1 st2 :
  is_Some (d_id d) ->
  collection st1 = collection st2 -> index_log st1 = index_log st2 ->
  (add_document d st1).1 = (add_document d st2).1 /\
  collection (add_document d st1).2 = collection (add_document d st2).2 /\
  index_log (add_document d st1).2 = index_log (add_document d st2).2.
Proof.
  intros [doc_id Hid] Hrows Hlog. unfold add_document. rewrite Hid.
  cbn [default from_option id].
  destruct (is_empty _); [cbn; auto|].
  now apply add_chunks_same.
Qed.

Lemma add_documents_cons d rest st :
  (add_documents (d :: rest) st).2
  = (add_documents rest (add_document d (tick_uuid st)).2).2.
Proof.
  cbn [add_documents].
  destruct (add_document d (tick_uuid st)) as [chunk_ids st']. cbn [snd].
  destruct (add_documents rest st') as [result st'']. reflexivity.
Qed.

Lemma add_documents_fold docs : forall st1 st2,
  Forall (fun d => is_Some (d_id d)) docs ->
  collection st1 = collection st2 -> index_log st1 = index_log st2 ->
  collection (add_documents docs st1).2
  = collection (foldl (fun st d => (add_document d st).2) st2 docs) /\
  index_log (add_documents docs st1).2
  = index_log (foldl (fun st d => (add_document d st).2) st2 docs).
Proof.
  induction docs as [|d rest IH]; intros st1 st2 Hids Hrows Hlog;
    [cbn; auto|].
  apply Forall_cons in Hids as [Hid Hids].
  rewrite add_documents_cons. cbn [foldl].
  destruct (add_document_same d (tick_uuid st1) st2 Hid Hrows Hlog)
    as (_ & Hrows' & Hlog').
  now apply IH.
Qed.

(** X18: for documents that all carry an id, [add_documents] leaves in
    the collection, and issues to it, exactly what successive
    [add_document] calls do.  A document without id is reported under
    one freshly drawn uuid while its chunks are stored under the next
    one drawn. *)
Theorem add_documents_as_add_document (docs : list document) (st : store) :
  (Forall (fun d => is_Some (d_id d)) docs ->
   collection (add_documents docs st).2
   = collection (foldl (fun st d => (add_document d st).2) st docs) /\
   index_log (add_documents docs st).2
   = index_log (foldl (fun st d => (add_document d st).2) st docs)) /\
  (forall d content,
      d_id d = None -> d_content d = Some content -> content <> EmptyString ->
      (add_documents [d] st).1
      = [(uuid4 (uuid_calls st),
          map (chunk_id_of (uuid4 (S (uuid_calls st))))
            (seq 0 (length (_chunk_text content None None))))]).
Proof.
  split.
  - intros Hids. now apply add_documents_fold.
  - intros d content Hid Hcontent Hne. cbn [add_documents].
    destruct (add_document d (tick_uuid st)) as [chunk_ids st'] eqn:Hadd.
    rewrite Hid. cbn [default from_option id]. f_equal. f_equal.
    apply (f_equal fst) in Hadd. cbn [fst] in Hadd. rewrite <- Hadd.
    unfold add_document. rewrite Hid, Hcontent. cbn [default from_option id].
    destruct content as [|c content]; [congruence|]. cbn [is_empty].
    rewrite add_chunks_ids. reflexivity.
Qed.

End BatchFacts.

Lemma add_documents_as_add_document_witness :
  (@VectorStore.add_documents Scenarios.gateway_up Scenarios.plain_index
     Scenarios.plain_runtime [MoreScenarios.anonymous_document]
     Scenarios.empty_store).1
  = [("uuid-0", ["uuid-1_chunk_0"])] /\
  collection
    (@VectorStore.add_documents Scenarios.gateway_up Scenarios.plain_index
       Scenarios.plain_runtime Scenarios.aged_documents Scenarios.empty_store).2
  = collection
      (foldl (fun st d =>
                (@VectorStore.add_document Scenarios.gateway_up
                   Scenarios.plain_index Scenarios.plain_runtime d st).2)
         Scenarios.empty_store Scenarios.aged_documents).
Proof.
  destruct (@add_documents_as_add_document Scenarios.gateway_up
              Scenarios.plain_index Scenarios.plain_runtime
              [MoreScenarios.anonymous_document] Scenarios.empty_store)
    as [_ Hanonymous].
  destruct (@add_documents_as_add_document Scenarios.gateway_up
              Scenarios.plain_index Scenarios.plain_runtime
              Scenarios.aged_documents Scenarios.empty_store)
    as [Hbatch _].
  split.
  - rewrite (Hanonymous MoreScenarios.anonymous_document "A note without an id.");
      [reflexivity|reflexivity|reflexivity|discriminate].
  - apply Hbatch. repeat constructor; eexists; reflexivity.
Defined.

(** ** Refresh of popular topics and the update cycle *)

Section RefreshFacts.
Context `{EmbeddingGateway} `{VectorIndex} `{ContentAggregator} `{Runtime}
        `{Maintenance.SetOrder}.
Import PyStr VectorStore MemoryManager Maintenance.

Lemma tracks_more_refl mm : tracks_more mm mm.
Proof. unfold tracks_more. auto. Qed.

Lemma tracks_more_trans mm1 mm2 mm3 :
  tracks_more mm1 mm2 -> tracks_more mm2 mm3 -> tracks_more mm1 mm3.
Proof.
  unfold tracks_more. intros (Hdom & Hp & Ht & Hl) (Hdom' & Hp' & Ht' & Hl').
  split; [etransitivity; eassumption|]. repeat split; congruence.
Qed.

Lemma set_checksum_tracks_more mm doc_id checksum :
  tracks_more mm (set_checksum mm doc_id checksum).
Proof.
  unfold tracks_more, set_checksum. cbn.
  split; [rewrite dom_insert_L; apply union_subseteq_r|auto].
Qed.

Lemma add_with_tracking_tracks_more mm st d :
  tracks_more mm (add_document_with_tracking mm st d).1.2.
Proof.
  unfold add_document_with_tracking.
  destruct (is_empty _); [apply tracks_more_refl|].
  destruct (add_document d st) as [[|chunk_id chunk_ids] st']; cbn [fst snd];
    [apply tracks_more_refl|apply set_checksum_tracks_more].
Qed.

Lemma update_if_changed_tracks_more mm st d :
  tracks_more mm (update_document_if_changed mm st d).1.2.
Proof.
  unfold update_document_if_changed.
  destruct (is_empty _); [apply tracks_more_refl|].
  case_bool_decide; [|apply tracks_more_refl].
  destruct (update_document d st) as [[|chunk_id chunk_ids] st']; cbn [fst snd];
    [apply tracks_more_refl|apply set_checksum_tracks_more].
Qed.

Lemma refresh_item_tracks_more acc content :
  tracks_more acc.1.2 (refresh_item acc content).1.2.
Proof.
  destruct acc as [[refreshed_count mm] st]. unfold refresh_item. cbn [fst snd].
  case_bool_decide.
  - pose proof (update_if_changed_tracks_more mm st (document_of_fetched content)).
    destruct (update_document_if_changed mm st _) as [[changed mm'] st'].
    assumption.
  - pose proof (add_with_tracking_tracks_more mm st (document_of_fetched content)).
    destruct (add_document_with_tracking mm st _) as [[chunk_ids mm'] st'].
    assumption.
Qed.

Lemma refresh_items_tracks_more fresh_content : forall acc,
  tracks_more acc.1.2 (foldl refresh_item acc fresh_content).1.2.
Proof.
  induction fresh_content as [|content rest IH]; intros acc; cbn [foldl];
    [apply tracks_more_refl|].
  eapply tracks_more_trans; [apply refresh_item_tracks_more|apply IH].
Qed.

Lemma refresh_topics_tracks_more topics : forall acc,
  tracks_more acc.1.2 (foldl refresh_topic acc topics).1.2.
Proof.
  induction topics as [|topic rest IH]; intros acc; cbn [foldl];
    [apply tracks_more_refl|].
  eapply tracks_more_trans; [|apply IH].
  unfold refresh_topic.
  destruct (gather_comprehensive_content topic);
    [apply refresh_items_tracks_more|apply tracks_more_refl].
Qed.

Lemma refresh_topics_nothing_fetched topics : forall acc,
  (forall topic, gather_comprehensive_content topic = None \/
                 gather_comprehensive_content topic = Some []) ->
  foldl refresh_topic acc topics = acc.
Proof.
  induction topics as [|topic rest IH]; intros acc Hnothing; cbn [foldl];
    [reflexivity|].
  unfold refresh_topic at 2.
  destruct (Hnothing topic) as [-> | ->]; cbn [foldl]; now apply IH.
Qed.

Lemma auto_refresh_popular_content_fields mm st now :
  (popular_topics mm = ∅ ->
   last_update_time (auto_refresh_popular_content mm st now).1
   = last_update_time mm) /\
  (popular_topics mm <> ∅ ->
   last_update_time (auto_refresh_popular_content mm st now).1 = now) /\
  search_patterns (auto_refresh_popular_content mm st now).1
  = search_patterns mm /\
  popular_topics (auto_refresh_popular_content mm st now).1 = popular_topics mm.
Proof.
  unfold auto_refresh_popular_content.
  case_bool_decide as Hpopular.
  - cbn [fst]. repeat split; try reflexivity; congruence.
  - pose proof (refresh_topics_tracks_more
                  (take 3 (set_list (popular_topics mm))) (0, mm, st)) as Hmore.
    destruct (foldl refresh_topic (0, mm, st) _) as [[refreshed_count mm'] st'].
    cbn [fst snd] in *. destruct Hmore as (_ & Hpatterns & Htopics & _).
    split; [congruence|]. repeat split; assumption.
Qed.

(** X19: [auto_refresh_popular_content] does nothing at all when there
    is no popular topic (the time of the last update stays as it was);
    otherwise it sets the time of the last update to the clock.  It
    never touches the search patterns or the popular topics and never
    stops tracking a document; and when the aggregator fails or finds
    nothing for every topic, store and checksums are left as they were. *)
Theorem auto_refresh_popular_content_effects (mm : memory) (st : store) (now : Z) :
  let outcome := auto_refresh_popular_content mm st now in
  (popular_topics mm = ∅ -> outcome = (mm, st)) /\
  (popular_topics mm <> ∅ -> last_update_time outcome.1 = now) /\
  dom (document_checksums mm) ⊆ dom (document_checksums outcome.1) /\
  search_patterns outcome.1 = search_patterns mm /\
  popular_topics outcome.1 = popular_topics mm /\
  ((forall topic, gather_comprehensive_content topic = None \/
                  gather_comprehensive_content topic = Some []) ->
   outcome.2 = st /\ document_checksums outcome.1 = document_checksums mm).
Proof.
  cbn zeta. unfold auto_refresh_popular_content.
  case_bool_decide as Hpopular.
  - cbn [fst snd]. repeat split; try reflexivity; congruence.
  - pose proof (refresh_topics_tracks_more
                  (take 3 (set_list (popular_topics mm))) (0, mm, st)) as Hmore.
    pose proof (refresh_topics_nothing_fetched
                  (take 3 (set_list (popular_topics mm))) (0, mm, st)) as Hnothing.
    destruct (foldl refresh_topic (0, mm, st) _) as [[refreshed_count mm'] st'].
    cbn [fst snd] in *. destruct Hmore as (Hdom & Hpatterns & Htopics & _).
    split; [congruence|]. split; [reflexivity|].
    split; [exact Hdom|]. split; [exact Hpatterns|]. split; [exact Htopics|].
    intros Hfails. specialize (Hnothing Hfails). injection Hnothing as _ -> ->.
    split; reflexivity.
Qed.

Lemma remove_outdated_step acc doc_id :
  search_patterns (remove_outdated acc doc_id).1 = search_patterns acc.1 /\
  popular_topics (remove_outdated acc doc_id).1 = popular_topics acc.1 /\
  last_update_time (remove_outdated acc doc_id).1 = last_update_time acc.1 /\
  dom (document_checksums (remove_outdated acc doc_id).1)
  ⊆ dom (document_checksums acc.1).
Proof.
  unfold remove_outdated.
  destruct (delete_document doc_id acc.2) as [[] st']; cbn;
    repeat split; try reflexivity.
  rewrite dom_delete_L. apply subseteq_difference_l. reflexivity.
Qed.

Lemma remove_outdated_fields doc_ids : forall acc,
  search_patterns (foldl remove_outdated acc doc_ids).1 = search_patterns acc.1 /\
  popular_topics (foldl remove_outdated acc doc_ids).1 = popular_topics acc.1 /\
  last_update_time (foldl remove_outdated acc doc_ids).1 = last_update_time acc.1 /\
  dom (document_checksums (foldl remove_outdated acc doc_ids).1)
  ⊆ dom (document_checksums acc.1).
Proof.
  induction doc_ids as [|doc_id doc_ids IH]; intros acc; cbn [foldl];
    [repeat split; reflexivity|].
  destruct (IH (remove_outdated acc doc_id)) as (Hp & Ht & Hl & Hdom).
  destruct (remove_outdated_step acc doc_id) as (Hp' & Ht' & Hl' & Hdom').
  repeat split; try congruence. etransitivity; eassumption.
Qed.

Lemma cleanup_fields mm st now max_age_days :
  search_patterns (cleanup_outdated_content mm st now max_age_days).1
  = search_patterns mm /\
  popular_topics (cleanup_outdated_content mm st now max_age_days).1
  = popular_topics mm /\
  last_update_time (cleanup_outdated_content mm st now max_age_days).1
  = last_update_time mm /\
  dom (document_checksums (cleanup_outdated_content mm st now max_age_days).1)
  ⊆ dom (document_checksums mm).
Proof.
  unfold cleanup_outdated_content.
  destruct (index_get_rejects ["metadatas"]); [repeat split; reflexivity|].
  destruct (map _ (map_to_list (collection st))); [repeat split; reflexivity|].
  destruct (cutoff now max_age_days); [|repeat split; reflexivity].
  apply (remove_outdated_fields _ (mm, st)).
Qed.

(** X20: a turn of the update loop does nothing before 24 hours have
    passed since the last update; it never changes the search patterns
    or the popular topics; when it refreshes with a popular topic at
    hand, the time of the last update becomes the clock read by the
    refresh; and with no popular topic the time of the last update is
    never moved, so that the following turns find the same hours
    elapsed and more. *)
Theorem update_cycle_effects
    (mm : memory) (st : store) (now now_refresh now_cleanup : Z) :
  let outcome := update_cycle mm st now now_refresh now_cleanup in
  (now - last_update_time mm < 24 * hour_us -> outcome = (mm, st)) /\
  search_patterns outcome.1 = search_patterns mm /\
  popular_topics outcome.1 = popular_topics mm /\
  (popular_topics mm = ∅ -> last_update_time outcome.1 = last_update_time mm) /\
  (popular_topics mm <> ∅ -> 24 * hour_us <= now - last_update_time mm ->
   last_update_time outcome.1 = now_refresh).
Proof.
  cbn zeta. unfold update_cycle.
  destruct (24 * hour_us <=? now - last_update_time mm) eqn:Hdue.
  - apply Z.leb_le in Hdue.
    destruct (auto_refresh_popular_content_fields mm st now_refresh)
      as (Hnone & Hsome & Hpatterns & Htopics).
    destruct (auto_refresh_popular_content mm st now_refresh) as [mm1 st1].
    cbn [fst snd] in *.
    pose proof (cleanup_fields mm1 st1 now_cleanup 90) as (Hp & Ht & Hl & _).
    destruct (168 * hour_us <=? now - last_update_time mm).
    + destruct (cleanup_outdated_content mm1 st1 now_cleanup 90) as [mm2 st2].
      cbn [fst snd] in *.
      split; [lia|]. repeat split; try congruence.
      * intros Hempty. rewrite Hl. now apply Hnone.
      * intros Hpopular _. rewrite Hl. now apply Hsome.
    + cbn [fst snd]. split; [lia|]. repeat split; auto.
  - cbn [fst snd]. apply Z.leb_gt in Hdue. repeat split; try reflexivity. lia.
Qed.

End RefreshFacts.

Lemma auto_refresh_popular_content_effects_witness :
  MemoryManager.last_update_time
    (@Maintenance.auto_refresh_popular_content Scenarios.gateway_up
       Scenarios.plain_index MoreScenarios.stocked_aggregator
       Scenarios.plain_runtime MoreScenarios.listed_order
       MoreScenarios.popular_memory Scenarios.empty_store Scenarios.noon).1
  = Scenarios.noon.
Proof.
  destruct (@auto_refresh_popular_content_effects Scenarios.gateway_up
              Scenarios.plain_index MoreScenarios.stocked_aggregator
              Scenarios.plain_runtime MoreScenarios.listed_order
              MoreScenarios.popular_memory Scenarios.empty_store Scenarios.noon)
    as (_ & Hclock & _).
  apply Hclock. intros Hnone. vm_compute in Hnone. discriminate Hnone.
Defined.

Lemma update_cycle_effects_witness :
  MemoryManager.last_update_time
    (@Maintenance.update_cycle Scenarios.gateway_up Scenarios.plain_index
       MoreScenarios.stocked_aggregator Scenarios.plain_runtime
       MoreScenarios.listed_order MoreScenarios.popular_memory
       Scenarios.aged.2 Scenarios.noon (Scenarios.noon + 5) (Scenarios.noon + 9)).1
  = Scenarios.noon + 5.
Proof.
  destruct (@update_cycle_effects Scenarios.gateway_up Scenarios.plain_index
              MoreScenarios.stocked_aggregator Scenarios.plain_runtime
              MoreScenarios.listed_order MoreScenarios.popular_memory
              Scenarios.aged.2 Scenarios.noon (Scenarios.noon + 5)
              (Scenarios.noon + 9))
    as (_ & _ & _ & _ & Hclock).
  apply Hclock.
  - intros Hnone. vm_compute in Hnone. discriminate Hnone.
  - vm_compute. discriminate.
Defined.

Lemma remove_duplicate_chunks_effects_witness :
  (row_document <$> collection MoreScenarios.twin_store !! "note1_chunk_0")
  = (row_document <$> collection MoreScenarios.twin_store !! "other_chunk_0") /\
  @Maintenance._remove_duplicate_chunks Scenarios.plain_index
    Scenarios.plain_runtime MoreScenarios.twin_store
  = MoreScenarios.twin_store /\
  (forall r1 r2,
      let st' :=
        @Maintenance._remove_duplicate_chunks Scenarios.lenient_index
          Scenarios.plain_runtime MoreScenarios.twin_store in
      collection st' !! "note1_chunk_0" = Some r1 ->
      collection st' !! "other_chunk_0" = Some r2 ->
      row_document r1 <> row_document r2).
Proof.
  split; [vm_compute; reflexivity|]. split.
  - destruct (@remove_duplicate_chunks_effects Scenarios.plain_index
                Scenarios.plain_runtime MoreScenarios.twin_store)
      as [Hrefused _].
    apply Hrefused. reflexivity.
  - intros r1 r2 st' H1 H2 Hsame.
    destruct (@remove_duplicate_chunks_effects Scenarios.lenient_index
                Scenarios.plain_runtime MoreScenarios.twin_store)
      as (_ & Hanswered & _).
    specialize (Hanswered eq_refl "note1_chunk_0" r1 "other_chunk_0" r2 H1 H2 Hsame).
    discriminate.
Defined.
